(** * meilisearch_python_sdk: client-side logic of the Meilisearch binding

    A shallow embedding of the parts of [_client.py] and [index.py] that carry
    logic of their own: batch partitioning, tenant-token generation, the
    task poller, the get-or-create composition, raw index lookup, delimiter
    validation and the dispatch order of directory ingestion.

    Python values are modelled as follows.
    - [int] is [Z]; a [list] is a Rocq [list]; [str] is [string], except for
      the csv delimiter, which is a list of code points so that a single
      non-ASCII character can be told from a multi-byte one;
    - a [dict] with string keys is a [gmap string _];
    - [None]-able arguments are [option]s;
    - a raised exception is the [Err] branch of [result];
    - HTTP traffic is an explicit log of requests threaded through the
      computation; the server answers a request as a function of the
      requests made before it. *)

From stdpp Require Import gmap strings list fin_maps pretty.
From Stdlib Require Import ZArith Lia Ascii.

Local Set Warnings "-register-all,-clear-no-such-hyp".
Local Open Scope Z_scope.

(** ** Exceptions and results *)

Inductive json :=
| JNull
| JBool (b : bool)
| JNum (n : Z)
| JStr (s : string)
| JList (l : list json)
| JObj (o : gmap string json).

(** The exception classes the modelled code raises or lets through.
    [MeilisearchApiError] carries the HTTP status and the [code] field of the
    server's error body; [MeilisearchTaskFailedError] carries the error
    payload of the task. [OtherError] stands for exceptions of libraries
    (a [KeyError], a pydantic validation error, a JSON decoding error). *)
Inductive exn :=
| ValueError (msg : string)
| TypeError
| InvalidRestriction (msg : string)
| MeilisearchError (msg : string)
| InvalidDocumentError (msg : string)
| MeilisearchApiError (status_code : Z) (code : string)
| MeilisearchCommunicationError
| MeilisearchTimeoutError
| MeilisearchTaskFailedError (payload : option json)
| OtherError (what : string).

Inductive result (A : Type) :=
| Ok (a : A)
| Err (e : exn).
Arguments Ok {A} a.
Arguments Err {A} e.

Definition is_ok {A} (r : result A) : bool :=
  match r with Ok _ => true | Err _ => false end.

(** ** Python built-ins used by the code *)

Module Py.

(** [bool(x)] for the values that occur as conditions. *)
Definition truthy (j : json) : bool :=
  match j with
  | JNull => false
  | JBool b => b
  | JNum n => negb (n =? 0)
  | JStr s => negb (String.eqb s "")
  | JList l => match l with [] => false | _ => true end
  | JObj o => negb (bool_decide (o = ∅))
  end.

Definition truthy_opt (o : option json) : bool :=
  match o with None => false | Some j => truthy j end.

(** [bool(s)] for [s : str | None]. *)
Definition truthy_str (o : option string) : bool :=
  match o with None => false | Some s => negb (String.eqb s "") end.

(** [len(range(start, stop, step))] as CPython computes it. *)
Definition range_len (start stop step : Z) : Z :=
  if 0 <? step then
    if start <? stop then (stop - start - 1) / step + 1 else 0
  else
    if stop <? start then (start - stop - 1) / (- step) + 1 else 0.

(** [range(start, stop, step)]; a zero step is a [ValueError]. *)
Definition range (start stop step : Z) : result (list Z) :=
  if step =? 0 then Err (ValueError "range() arg 3 must not be zero")
  else Ok (map (fun k : nat => start + Z.of_nat k * step)
               (seq 0 (Z.to_nat (range_len start stop step)))).

(** How a slice bound is brought into [0 .. len]. *)
Definition clamp (len i : Z) : Z :=
  if i <? 0 then Z.max 0 (i + len) else Z.min i len.

(** [l[i:j]] *)
Definition slice {A} (l : list A) (i j : Z) : list A :=
  let len := Z.of_nat (length l) in
  let lo := clamp len i in
  let hi := clamp len j in
  take (Z.to_nat (hi - lo)) (drop (Z.to_nat lo) l).

(** [needle in haystack] for two strings. *)
Fixpoint contains (needle haystack : string) : bool :=
  String.prefix needle haystack
  || match haystack with
     | EmptyString => false
     | String _ rest => contains needle rest
     end.

End Py.

(** ** Batch partitioning ([index.py], [_batch] and [_combine_documents]) *)

Module Batch.

Section Documents.
Context {doc : Type}.

(** [_batch] is a generator; the model is the list of everything it
    yields, or the exception raised when it is first advanced. *)
Definition _batch (documents : list doc) (batch_size : Z) : result (list (list doc)) :=
  let total_len := Z.of_nat (length documents) in
  match Py.range 0 total_len batch_size with
  | Err e => Err e
  | Ok idx => Ok (map (fun i => Py.slice documents i (i + batch_size)) idx)
  end.

(** [[x for y in documents for x in y]] *)
Definition _combine_documents (documents : list (list doc)) : list doc :=
  flat_map (fun y => flat_map (fun x => [x]) y) documents.

(** The partition on natural numbers: chunk [k] is
    [take b (drop (k * b) l)]. *)
Definition chunk (b : nat) (l : list doc) (k : nat) : list doc :=
  take b (drop (k * b) l).

End Documents.

(** [ceil(n / b)] for [b >= 1]. *)
Definition ceil_div (n b : Z) : Z := (n + b - 1) / b.

End Batch.

(** ** The exception monad *)

#[global] Instance result_ret : MRet result := fun A a => Ok a.
#[global] Instance result_bind : MBind result := fun A B f r =>
  match r with Ok a => f a | Err e => Err e end.

(** ** Tenant tokens ([_client.py], [BaseClient.generate_tenant_token]) *)

Module Token.

(** The fields of the [Key] model that the generator reads. *)
Record Key := {
  uid : string;
  key : string;
  indexes : list string
}.

(** An aware [datetime], as microseconds since the epoch; the comparison
    of two aware datetimes is the comparison of their instants. *)
Definition datetime := Z.

(** [index == k] for a JSON value and a string of the key. *)
Definition eq_str (index : json) (k : string) : bool :=
  match index with JStr s => String.eqb s k | _ => false end.

(** [index not in api_key.indexes] *)
Definition not_in (index : json) (l : list string) : bool :=
  negb (existsb (eq_str index) l).

(** What [for index in v] ranges over: the items of a list, the
    characters of a string, the keys of a dict; other values are not
    iterable. *)
Definition iterate (v : json) : result (list json) :=
  match v with
  | JList l => Ok l
  | JStr s => Ok (map (fun c => JStr (String c EmptyString)) (String.list_ascii_of_string s))
  | JObj o => Ok (map (fun kv => JStr kv.1) (map_to_list o))
  | _ => Err TypeError
  end.

(** The body of the [for] loop, run over the requested indexes. *)
Fixpoint check_indexes (api_key : Key) (requested : list json) : result unit :=
  match requested with
  | [] => Ok tt
  | index :: rest =>
      if negb (bool_decide (indexes api_key = ["*"%string])) && not_in index (indexes api_key)
      then Err (InvalidRestriction
                  "Invalid index. The token cannot be less restrictive than the API key")
      else check_indexes api_key rest
  end.

(** The first statement of the function: the guard
    [isinstance(search_rules, dict) and search_rules.get("indexes")] and
    the loop it protects. *)
Definition check_restriction (search_rules : json) (api_key : Key) : result unit :=
  match search_rules with
  | JObj o =>
      if Py.truthy_opt (o !! "indexes"%string) then
        requested ← iterate (default JNull (o !! "indexes"%string));
        check_indexes api_key requested
      else Ok tt
  | _ => Ok tt
  end.

Section Jwt.
(** The JWT library and the clock are outside the repository:
    [jwt_encode payload key] is [jwt.encode(payload, key,
    algorithm="HS256")], [int_timestamp d] is
    [int(datetime.timestamp(d))] and [now] is the reading of
    [datetime.now(tz=timezone.utc)] during the call. *)
Context {token : Type}.
Variable jwt_encode : gmap string json -> string -> token.
Variable int_timestamp : datetime -> Z.

Definition generate_tenant_token (now : datetime) (search_rules : json)
    (api_key : Key) (expires_at : option datetime) : result token :=
  _ ← check_restriction search_rules api_key;
  let payload : gmap string json := {[ "searchRules"%string := search_rules ]} in
  let payload := <[ "apiKeyUid"%string := JStr (uid api_key) ]> payload in
  match expires_at with
  | Some e =>
      if e <=? now then Err (ValueError "expires_at must be a time in the future")
      else
        let payload := <[ "exp"%string := JNum (int_timestamp e) ]> payload in
        Ok (jwt_encode payload (key api_key))
  | None => Ok (jwt_encode payload (key api_key))
  end.

End Jwt.

(** A stand-in for the JWT library, used to run the generator: the token
    is the claim set together with the signing key, and decoding checks
    the key. *)
Definition plain_encode (payload : gmap string json) (k : string) : gmap string json * string :=
  (payload, k).

Definition plain_decode (t : gmap string json * string) (k : string) : option (gmap string json) :=
  if String.eqb t.2 k then Some t.1 else None.

(** Whole seconds of an instant given in microseconds. *)
Definition whole_seconds (d : datetime) : Z := d ÷ 1000000.

End Token.

(** ** Models: the typed objects of [models/] and [pathlib] *)

Module Models.

(** A [pathlib.Path]: the path as text and the suffix [pathlib] computes
    from its last component. *)
Record Path := {
  path_str : string;
  suffix : string
}.

(** [BaseIndex]: what an [AsyncIndex] or [Index] instance holds. The
    primary key is kept as the JSON value the server sent ([JNull] for
    [None]); the timestamps are instants, or [None]. *)
Record AsyncIndex := {
  uid : string;
  primary_key : json;
  created_at : option Z;
  updated_at : option Z
}.

Record IndexInfo := {
  info_uid : string;
  info_primary_key : option string
}.

(** The handle returned by a mutating call. *)
Record TaskInfo := {
  task_uid : Z;
  task_type : string
}.

Inductive TaskStatus := enqueued | processing | succeeded | failed | canceled.

(** Modelled from the spec: the task snapshot of section 3 (the file
    [models/task.py] is not part of the sources at hand): numeric
    identifier, status, type tag, optional error payload and optional
    detail payload. *)
Record TaskResult := {
  result_uid : Z;
  status : TaskStatus;
  result_type : string;
  error : option json;
  details : option json
}.

End Models.

(** ** HTTP traffic, the file system and the event loop *)

Module Http.
Import Models.

(** A Python [str] as its code points. *)
Definition pystr := list N.

Definition codepoints (s : string) : pystr :=
  map N_of_ascii (String.list_ascii_of_string s).

Inductive verb := GET | POST | PUT | PATCH | DELETE.

(** A URL as the code builds it: a path, and the query parameters that
    [_build_encoded_url] hands to [urlencode], in dict order. *)
Record url := {
  path : string;
  query : list (string * pystr)
}.

Inductive body :=
| NoBody
| JsonBody (j : json)
| RawBody (data : string) (content_type : string).

Record request := {
  method : verb;
  target : url;
  payload : body
}.

(** A response: its status and what [response.json()] gives. *)
Record response := {
  status_code : Z;
  json_body : result json
}.

Inductive outcome :=
| Response (r : response)
| TransportFailure.

(** Everything outside the repository that the code calls. The server
    answers a request knowing the requests made before it. *)
Record env := {
  respond : list request -> request -> outcome;
  latency : list request -> request -> Z;
  use_task_groups : bool;
  iterdir : Path -> list Path;
  path_exists : Path -> bool;
  read_text : Path -> result string;
  csv_DictReader : string -> option pystr -> result (list json);
  json_loads : string -> result json;
  text_lines : string -> list string;
  IndexInfo_of : json -> result IndexInfo;
  TaskInfo_of : json -> result TaskInfo;
  TaskResult_of : json -> result TaskResult;
  iso_to_date_time : json -> result (option Z)
}.

(** The state threaded through a call: the requests made so far, grouped
    in rounds (a round of one request was awaited alone, a round of
    several was dispatched concurrently and awaited together), and the
    clock in milliseconds. *)
Record world := {
  rounds : list (list request);
  clock : Z
}.

Definition history (w : world) : list request := concat (rounds w).

Definition M (A : Type) : Type := world -> result A * world.

#[global] Instance M_ret : MRet M := fun A a w => (Ok a, w).
#[global] Instance M_bind : MBind M := fun A B f c w =>
  match c w with
  | (Ok a, w') => f a w'
  | (Err e, w') => (Err e, w')
  end.

Definition raise {A} (e : exn) : M A := fun w => (Err e, w).

Definition lift {A} (r : result A) : M A := fun w => (r, w).

(** One request on the wire. *)
Definition send (E : env) (r : request) : M outcome := fun w =>
  (Ok (respond E (history w) r),
   {| rounds := rounds w ++ [[r]];
      clock := clock w + latency E (history w) r |}).

(** The bare [httpx] client: any status is a response, a transport
    failure is an exception of [httpx]. *)
Definition httpx_send (E : env) (r : request) : M response :=
  o ← send E r;
  match o with
  | Response resp => mret resp
  | TransportFailure => raise (OtherError "httpx.TransportError")
  end.

(** The [code] field of the server's error body, or the empty string. *)
Definition error_code (resp : response) : string :=
  match json_body resp with
  | Ok (JObj o) => match o !! "code"%string with Some (JStr s) => s | _ => ""%string end
  | _ => ""%string
  end.

(** Modelled from the spec: the transport adapter of section 4.3 (the
    file [_http_requests.py] is not part of the sources at hand). It
    maps a transport failure to [MeilisearchCommunicationError] and a
    non-2xx response to [MeilisearchApiError] with the status code and the
    code of the error body. *)
Definition HttpRequests_send (E : env) (r : request) : M response :=
  o ← send E r;
  match o with
  | TransportFailure => raise MeilisearchCommunicationError
  | Response resp =>
      if (200 <=? status_code resp) && (status_code resp <? 300) then mret resp
      else raise (MeilisearchApiError (status_code resp) (error_code resp))
  end.

Definition plain_url (p : string) : url := {| path := p; query := [] |}.

Definition HttpRequests_get (E : env) (p : string) : M response :=
  HttpRequests_send E {| method := GET; target := plain_url p; payload := NoBody |}.

Definition HttpRequests_post (E : env) (u : url) (b : body) : M response :=
  HttpRequests_send E {| method := POST; target := u; payload := b |}.

(** Runs the computations one after the other, keeping every result. *)
Fixpoint run_all {A} (cs : list (M A)) (w : world) : list (result A) * world :=
  match cs with
  | [] => ([], w)
  | c :: cs' =>
      let '(r, w1) := c w in
      let '(rs, w2) := run_all cs' w1 in
      (r :: rs, w2)
  end.

(** The results, or the first exception. *)
Fixpoint collect {A} (rs : list (result A)) : result (list A) :=
  match rs with
  | [] => Ok []
  | Ok a :: rs' => match collect rs' with Ok l => Ok (a :: l) | Err e => Err e end
  | Err e :: _ => Err e
  end.

(** [asyncio.gather] over the computations [cs], and the tasks of an [asyncio.TaskGroup]: the
    computations are started in order and run concurrently, so what they
    send forms one round; an exception of one of them is raised once the
    others have been started. *)
Definition gather {A} (cs : list (M A)) : M (list A) := fun w =>
  let '(rs, w') := run_all cs w in
  let sent := concat (drop (length (rounds w)) (rounds w')) in
  (collect rs,
   {| rounds := rounds w ++ match sent with [] => [] | _ => [sent] end;
      clock := clock w' |}).

(** [asyncio.sleep] or [time.sleep] *)
Definition sleep (ms : Z) : M unit := fun w =>
  (Ok tt, {| rounds := rounds w; clock := clock w + ms |}).

(** [j[k]] for a string key. *)
Definition subscript (j : json) (k : string) : result json :=
  match j with
  | JObj o => match o !! k with Some v => Ok v | None => Err (OtherError "KeyError") end
  | _ => Err TypeError
  end.

Definition fresh : world := {| rounds := []; clock := 0 |}.

End Http.

(** ** The client facade ([_client.py]) *)

Module Client.
Import Models Http.

(** [AsyncIndex(http_client, uid)] *)
Definition new_index (uid : string) : AsyncIndex :=
  {| uid := uid; primary_key := JNull; created_at := None; updated_at := None |}.

(** [AsyncIndex.fetch_info] and [Index.fetch_info] ([index.py]) *)
Definition fetch_info (E : env) (self : AsyncIndex) : M AsyncIndex :=
  response ← HttpRequests_get E ("indexes/" +:+ uid self);
  index_dict ← lift (json_body response);
  pk ← lift (subscript index_dict "primaryKey");
  created_at_iso_str ← lift (subscript index_dict "createdAt");
  updated_at_iso_str ← lift (subscript index_dict "updatedAt");
  created ← lift (iso_to_date_time E created_at_iso_str);
  updated ← lift (iso_to_date_time E updated_at_iso_str);
  mret {| uid := uid self; primary_key := pk;
          created_at := created; updated_at := updated |}.

(** [AsyncClient.get_index] and [Client.get_index] *)
Definition get_index (E : env) (uid : string) : M AsyncIndex :=
  fetch_info E (new_index uid).

(** [AsyncClient.get_or_create_index] and [Client.get_or_create_index].
    [create_index] is the client's method of that name, which posts the
    index, waits on the poller and fetches the index. *)
Definition get_or_create_index (E : env)
    (create_index : string -> option string -> M AsyncIndex)
    (uid : string) (primary_key : option string) : M AsyncIndex := fun w =>
  match get_index E uid w with
  | (Ok index_instance, w') => (Ok index_instance, w')
  | (Err (MeilisearchApiError sc code), w') =>
      if negb (Py.contains "index_not_found" code)
      then (Err (MeilisearchApiError sc code), w')
      else create_index uid primary_key w'
  | (Err e, w') => (Err e, w')
  end.

(** Whether the [except] clause of [get_or_create_index] swallows the
    exception. *)
Definition index_not_found (e : exn) : bool :=
  match e with
  | MeilisearchApiError _ code => Py.contains "index_not_found" code
  | _ => false
  end.

(** The request for [f"indexes/{uid}"]. *)
Definition index_request (uid : string) : request :=
  {| method := GET; target := plain_url ("indexes/" +:+ uid); payload := NoBody |}.

(** [IndexInfo] from the JSON of a response. *)
Definition raw_index_of (E : env) (resp : response) : result (option IndexInfo) :=
  j ← json_body resp;
  info ← IndexInfo_of E j;
  mret (Some info).

(** [AsyncClient.get_raw_index] and [Client.get_raw_index] *)
Definition get_raw_index (E : env) (uid : string) : M (option IndexInfo) :=
  response ← httpx_send E (index_request uid);
  if status_code response =? 404 then mret None
  else
    j ← lift (json_body response);
    info ← lift (IndexInfo_of E j);
    mret (Some info).

End Client.

(** ** The task poller *)

Module Poller.
Import Models Http.

Definition terminal (s : TaskStatus) : bool :=
  match s with
  | succeeded | failed | canceled => true
  | enqueued | processing => false
  end.

Definition unsuccessful (s : TaskStatus) : bool :=
  match s with
  | failed | canceled => true
  | _ => false
  end.

Definition task_request (task_id : Z) : request :=
  {| method := GET; target := plain_url ("tasks/" +:+ pretty task_id); payload := NoBody |}.

(** Modelled from the spec: one fetch of the task's status through the
    transport adapter (section 6, a [GET] on a per-task-id path); the
    file [_task.py] is not part of the sources at hand. *)
Definition get_task (E : env) (task_id : Z) : M TaskResult :=
  response ← HttpRequests_send E (task_request task_id);
  j ← lift (json_body response);
  lift (TaskResult_of E j).

Definition deadline_passed (timeout_in_ms : option Z) (start : Z) (w : world) : bool :=
  match timeout_in_ms with
  | Some t => t <=? clock w - start
  | None => false
  end.

(** Modelled from the spec: the polling loop of section 4.1 (the file
    [_task.py] is not part of the sources at hand). Elapsed time is
    measured from the moment before the first fetch; [None] as timeout
    disables the deadline check; a status of [succeeded], [failed] or
    [canceled] ends the loop; an error of the fetch propagates. The loop
    may run for ever, so it takes fuel, and [None] means the fuel ran
    out. *)
Fixpoint poll (fuel : nat) (E : env) (task_id : Z) (timeout_in_ms : option Z)
    (interval_in_ms : Z) (raise_for_status : bool) (start : Z) (w : world)
    : option (result TaskResult * world) :=
  match fuel with
  | O => None
  | S fuel' =>
      if deadline_passed timeout_in_ms start w then Some (Err MeilisearchTimeoutError, w)
      else
        match get_task E task_id w with
        | (Err e, w') => Some (Err e, w')
        | (Ok snapshot, w') =>
            if terminal (status snapshot) then
              if raise_for_status && unsuccessful (status snapshot)
              then Some (Err (MeilisearchTaskFailedError (error snapshot)), w')
              else Some (Ok snapshot, w')
            else
              poll fuel' E task_id timeout_in_ms interval_in_ms raise_for_status start
                   (sleep interval_in_ms w').2
        end
  end.

(** [AsyncClient.wait_for_task] and [Client.wait_for_task] ([_client.py])
    hand their arguments to the poller of [_task.py]. *)
Definition wait_for_task (fuel : nat) (E : env) (task_id : Z) (timeout_in_ms : option Z)
    (interval_in_ms : Z) (raise_for_status : bool) (w : world)
    : option (result TaskResult * world) :=
  poll fuel E task_id timeout_in_ms interval_in_ms raise_for_status (clock w) w.

(** The world in which the [k]-th iteration of the loop starts, when no
    earlier iteration ended it. *)
Fixpoint world_at (E : env) (task_id : Z) (interval_in_ms : Z) (k : nat) (w : world) : world :=
  match k with
  | O => w
  | S k' => world_at E task_id interval_in_ms k'
              (sleep interval_in_ms (get_task E task_id w).2).2
  end.

(** The task is still enqueued or processing at the [k]-th fetch. *)
Definition pending_at (E : env) (task_id : Z) (interval_in_ms : Z) (w : world) (k : nat)
    : Prop :=
  exists snapshot,
    (get_task E task_id (world_at E task_id interval_in_ms k w)).1 = Ok snapshot
    /\ terminal (status snapshot) = false.

End Poller.

(** ** Documents ([index.py]) *)

Module Documents.
Import Models Http.

(** [bool(csv_delimiter)] for [csv_delimiter : str | None] *)
Definition given (csv_delimiter : option pystr) : bool :=
  match csv_delimiter with
  | Some (_ :: _) => true
  | _ => false
  end.

(** [s.isascii()] *)
Definition isascii (s : pystr) : bool := forallb (fun c => (c <? 128)%N) s.

(** The condition guarding
    [raise ValueError("csv_delimiter must be a single ascii character")]:
    [csv_delimiter and len(csv_delimiter) != 1 or csv_delimiter and not
    csv_delimiter.isascii()]. *)
Definition bad_delimiter (csv_delimiter : option pystr) : bool :=
  let d := default [] csv_delimiter in
  (given csv_delimiter && negb (length d =? 1)%nat)
  || (given csv_delimiter && negb (isascii d)).

Definition _validate_file_type (file_path : Path) : result unit :=
  if existsb (String.eqb (suffix file_path)) [".json"; ".csv"; ".ndjson"]%string
  then Ok tt
  else Err (MeilisearchError "File must be a json, ndjson, or csv file").

Fixpoint loads_each (E : env) (ls : list string) : result (list json) :=
  match ls with
  | [] => Ok []
  | x :: rest =>
      d ← json_loads E x;
      ds ← loads_each E rest;
      mret (d :: ds)
  end.

(** [_load_documents_from_file]; [_async_load_documents_from_file] has
    the same statements, run in the executor of the loop. *)
Definition _load_documents_from_file (E : env) (file_path : Path)
    (csv_delimiter : option pystr) : result (list json) :=
  _ ← _validate_file_type file_path;
  if String.eqb (suffix file_path) ".csv" then
    if bad_delimiter csv_delimiter
    then Err (ValueError "csv_delimiter must be a single ascii character")
    else
      f ← read_text E file_path;
      if given csv_delimiter then csv_DictReader E f csv_delimiter
      else csv_DictReader E f None
  else if String.eqb (suffix file_path) ".ndjson" then
    f ← read_text E file_path;
    loads_each E (text_lines E f)
  else
    data ← read_text E file_path;
    documents ← json_loads E data;
    match documents with
    | JList l => Ok l
    | _ => Err (InvalidDocumentError "Meilisearch requires documents to be in a list")
    end.

Definition _async_load_documents_from_file := _load_documents_from_file.

Definition _raise_on_no_documents {A} (documents : list A) (document_type : string)
    (directory_path : Path) : result unit :=
  match documents with
  | [] => Err (MeilisearchError
                 ("No " +:+ document_type +:+ " files found in " +:+ path_str directory_path))
  | _ => Ok tt
  end.

Definition _build_encoded_url (base_url : string) (params : list (string * pystr)) : url :=
  {| path := base_url; query := params |}.

Definition _documents_url (self : AsyncIndex) : string :=
  "indexes/" +:+ uid self +:+ "/documents".

(** [AsyncIndex.add_documents] and [Index.add_documents] *)
Definition add_documents (E : env) (self : AsyncIndex) (documents : list json)
    (primary_key : option string) : M TaskInfo :=
  let url :=
    if Py.truthy_str primary_key
    then _build_encoded_url (_documents_url self)
           [("primaryKey"%string, codepoints (default ""%string primary_key))]
    else plain_url (_documents_url self) in
  response ← HttpRequests_post E url (JsonBody (JList documents));
  j ← lift (json_body response);
  lift (TaskInfo_of E j).

(** The request [add_documents] sends. *)
Definition post_documents (self : AsyncIndex) (documents : list json)
    (primary_key : option string) : request :=
  {| method := POST;
     target := if Py.truthy_str primary_key
               then _build_encoded_url (_documents_url self)
                      [("primaryKey"%string, codepoints (default ""%string primary_key))]
               else plain_url (_documents_url self);
     payload := JsonBody (JList documents) |}.

(** [AsyncIndex.add_documents_in_batches]: with or without task groups,
    one [add_documents] per batch, all dispatched together. *)
Definition add_documents_in_batches (E : env) (self : AsyncIndex) (documents : list json)
    (batch_size : Z) (primary_key : option string) : M (list TaskInfo) :=
  batches ← lift (Batch._batch documents batch_size);
  gather (map (fun x => add_documents E self x primary_key) batches).

(** The loop over [directory.iterdir()] that loads every file of the
    requested type, in the order of the listing. *)
Fixpoint load_matching (E : env) (paths : list Path) (document_type : string)
    (csv_delimiter : option pystr) : result (list (list json)) :=
  match paths with
  | [] => Ok []
  | p :: rest =>
      if String.eqb (suffix p) ("." +:+ document_type) then
        documents ← _async_load_documents_from_file E p csv_delimiter;
        others ← load_matching E rest document_type csv_delimiter;
        mret (documents :: others)
      else load_matching E rest document_type csv_delimiter
  end.

(** [l.pop()]: the last item and the list without it. *)
Definition pop {A} (l : list A) : option (A * list A) :=
  match last l with
  | Some x => Some (x, removelast l)
  | None => None
  end.

(** The branch [if len(add_documents) > 1] and its [else], shared by the
    two directory functions; [join] puts the first response in front of
    the gathered ones. *)
Definition first_alone_then_gather {A B} (coroutines : list (M A))
    (join : A -> list A -> B) (single : A -> B) : M B :=
  if (1 <? length coroutines)%nat then
    match pop coroutines with
    | Some (c, rest) =>
        first_response ← c;
        responses ← gather rest;
        mret (join first_response responses)
    | None => raise (OtherError "IndexError")
    end
  else
    match coroutines with
    | c :: _ => r ← c; mret (single r)
    | [] => raise (OtherError "IndexError")
    end.

(** The loop of the task-group branch: [i] counts the entries of the
    listing, of any type. The entry at position 0 is awaited on the spot,
    the others become tasks of the group. *)
Fixpoint task_group_loop (E : env) (self : AsyncIndex) (primary_key : option string)
    (document_type : string) (csv_delimiter : option pystr)
    (entries : list (nat * Path)) (tasks : list (M TaskInfo)) (all_results : list TaskInfo)
    : M (list (M TaskInfo) * list TaskInfo) :=
  match entries with
  | [] => mret (tasks, all_results)
  | (i, p) :: rest =>
      if String.eqb (suffix p) ("." +:+ document_type) then
        documents ← lift (_async_load_documents_from_file E p csv_delimiter);
        if (i =? 0)%nat then
          r ← add_documents E self documents None;
          task_group_loop E self primary_key document_type csv_delimiter rest tasks [r]
        else
          task_group_loop E self primary_key document_type csv_delimiter rest
            (tasks ++ [add_documents E self documents primary_key]) all_results
      else
        task_group_loop E self primary_key document_type csv_delimiter rest tasks all_results
  end.

Definition enumerate {A} (l : list A) : list (nat * A) := zip (seq 0 (length l)) l.

(** [AsyncIndex.add_documents_from_directory]. In the task-group branch
    the tasks are joined when the group is left; should a file fail to
    load, the group cancels them, and the model lets them send nothing. *)
Definition add_documents_from_directory (E : env) (self : AsyncIndex) (directory : Path)
    (primary_key : option string) (document_type : string)
    (csv_delimiter : option pystr) (combine_documents : bool) : M (list TaskInfo) :=
  if combine_documents then
    all_documents ← lift (load_matching E (iterdir E directory) document_type csv_delimiter);
    _ ← lift (_raise_on_no_documents all_documents document_type directory);
    let combined := Batch._combine_documents all_documents in
    response ← add_documents E self combined primary_key;
    mret [response]
  else if negb (use_task_groups E) then
    loaded ← lift (load_matching E (iterdir E directory) document_type csv_delimiter);
    let coroutines := map (fun documents => add_documents E self documents primary_key) loaded in
    _ ← lift (_raise_on_no_documents coroutines document_type directory);
    first_alone_then_gather coroutines (fun r rs => r :: rs) (fun r => [r])
  else
    '(tasks, all_results) ← task_group_loop E self primary_key document_type csv_delimiter
                              (enumerate (iterdir E directory)) [] [];
    results ← gather tasks;
    let all_results := all_results ++ results in
    _ ← lift (_raise_on_no_documents all_results document_type directory);
    mret all_results.

(** [AsyncIndex.add_documents_from_directory_in_batches] *)
Definition add_documents_from_directory_in_batches (E : env) (self : AsyncIndex)
    (directory : Path) (batch_size : Z) (primary_key : option string)
    (document_type : string) (csv_delimiter : option pystr) (combine_documents : bool)
    : M (list TaskInfo) :=
  if combine_documents then
    all_documents ← lift (load_matching E (iterdir E directory) document_type csv_delimiter);
    _ ← lift (_raise_on_no_documents all_documents document_type directory);
    let combined := Batch._combine_documents all_documents in
    add_documents_in_batches E self combined batch_size primary_key
  else
    loaded ← lift (load_matching E (iterdir E directory) document_type csv_delimiter);
    let coroutines :=
      map (fun documents => add_documents_in_batches E self documents batch_size primary_key)
          loaded in
    _ ← lift (_raise_on_no_documents coroutines document_type directory);
    first_alone_then_gather coroutines (fun r rs => r ++ concat rs) (fun r => r).

(** [AsyncIndex.add_documents_from_file_in_batches] *)
Definition add_documents_from_file_in_batches (E : env) (self : AsyncIndex)
    (file_path : Path) (batch_size : Z) (primary_key : option string)
    (csv_delimiter : option pystr) : M (list TaskInfo) :=
  documents ← lift (_async_load_documents_from_file E file_path csv_delimiter);
  add_documents_in_batches E self documents batch_size primary_key.

(** [AsyncIndex.add_documents_from_raw_file] *)
Definition add_documents_from_raw_file (E : env) (self : AsyncIndex) (upload_path : Path)
    (primary_key : option string) (csv_delimiter : option pystr) : M TaskInfo :=
  if negb (path_exists E upload_path)
  then raise (MeilisearchError "No file found at the specified path")
  else if negb (existsb (String.eqb (suffix upload_path)) [".csv"; ".ndjson"]%string)
  then raise (ValueError "Only csv and ndjson files can be sent as binary files")
  else if given csv_delimiter && negb (String.eqb (suffix upload_path) ".csv")
  then raise (ValueError "A csv_delimiter can only be used with csv files")
  else if bad_delimiter csv_delimiter
  then raise (ValueError "csv_delimiter must be a single ascii character")
  else
    let content_type :=
      if String.eqb (suffix upload_path) ".csv" then "text/csv"%string
      else "application/x-ndjson"%string in
    let parameters : list (string * pystr) :=
      (if Py.truthy_str primary_key
       then [("primaryKey"%string, codepoints (default ""%string primary_key))] else [])
      ++ (if given csv_delimiter
          then [("csvDelimiter"%string, default [] csv_delimiter)] else []) in
    let url :=
      match parameters with
      | [] => plain_url (_documents_url self)
      | _ => _build_encoded_url (_documents_url self) parameters
      end in
    data ← lift (read_text E upload_path);
    response ← HttpRequests_post E url (RawBody data content_type);
    j ← lift (json_body response);
    lift (TaskInfo_of E j).

(** Whether a request carries the [primaryKey] parameter. *)
Definition has_primary_key (r : request) : bool :=
  existsb (fun kv => String.eqb kv.1 "primaryKey") (query (target r)).

End Documents.

(** ** Scenarios: concrete inputs on which the definitions are run *)

Module Scenario.

(** A key restricted to the indexes a and b. *)
Definition key_ab : Token.Key :=
  {| Token.uid := "key-uid"; Token.key := "secret"; Token.indexes := ["a"; "b"]%string |}.

(** The search rules [{"indexes": names}]. *)
Definition rules (names : list string) : gmap string json :=
  {[ "indexes"%string := JList (JStr <$> names) ]}.

(** Three instants a day apart, in microseconds since the epoch. *)
Definition today : Token.datetime := 1700000000000000.
Definition tomorrow : Token.datetime := 1700086400000000.
Definition yesterday : Token.datetime := 1699913600000000.

(** *** A small server, file system and set of parsers *)

Import Models Http.

Definition status_of (s : string) : option TaskStatus :=
  if String.eqb s "enqueued" then Some enqueued
  else if String.eqb s "processing" then Some processing
  else if String.eqb s "succeeded" then Some succeeded
  else if String.eqb s "failed" then Some failed
  else if String.eqb s "canceled" then Some canceled
  else None.

Definition parse_TaskResult (j : json) : result TaskResult :=
  match j with
  | JObj o =>
      match o !! "uid"%string, o !! "status"%string, o !! "type"%string with
      | Some (JNum n), Some (JStr s), Some (JStr t) =>
          match status_of s with
          | Some st =>
              Ok {| result_uid := n; status := st; result_type := t;
                    error := match o !! "error"%string with
                             | Some JNull | None => None
                             | Some e => Some e
                             end;
                    details := None |}
          | None => Err (OtherError "ValidationError")
          end
      | _, _, _ => Err (OtherError "ValidationError")
      end
  | _ => Err TypeError
  end.

Definition parse_TaskInfo (j : json) : result TaskInfo :=
  match j with
  | JObj o =>
      match o !! "taskUid"%string, o !! "type"%string with
      | Some (JNum n), Some (JStr t) => Ok {| task_uid := n; task_type := t |}
      | _, _ => Err (OtherError "ValidationError")
      end
  | _ => Err TypeError
  end.

Definition parse_IndexInfo (j : json) : result IndexInfo :=
  match j with
  | JObj o =>
      match o !! "uid"%string with
      | Some (JStr u) =>
          Ok {| info_uid := u;
                info_primary_key := match o !! "primaryKey"%string with
                                    | Some (JStr k) => Some k
                                    | _ => None
                                    end |}
      | _ => Err (OtherError "ValidationError")
      end
  | _ => Err TypeError
  end.

Definition parse_date (j : json) : result (option Z) :=
  match j with
  | JNull => Ok None
  | JNum n => Ok (Some n)
  | _ => Err (ValueError "Invalid isoformat string")
  end.

Definition task_body (st : string) (err : json) : json :=
  JObj (<[ "uid"%string := JNum 7 ]>
        (<[ "status"%string := JStr st ]>
         (<[ "type"%string := JStr "documentAdditionOrUpdate" ]>
          {[ "error"%string := err ]}))).

Definition failure : json :=
  JObj {[ "code"%string := JStr "invalid_document_id" ]}.

Definition books_body : json :=
  JObj (<[ "uid"%string := JStr "books" ]>
        (<[ "primaryKey"%string := JStr "isbn" ]>
         (<[ "createdAt"%string := JNum 1 ]>
          {[ "updatedAt"%string := JNum 2 ]}))).

Definition not_found_body : json :=
  JObj {[ "code"%string := JStr "index_not_found" ]}.

Definition ok (j : json) : outcome := Response {| status_code := 200; json_body := Ok j |}.

(** The server knows the index books and nothing else. It accepts every
    post as task 7. Task 7 is reported enqueued on the first two fetches
    and failed from the third on, unless [stuck], in which case it stays
    enqueued. *)
Definition server (stuck : bool) (h : list request) (r : request) : outcome :=
  match method r with
  | GET =>
      if String.eqb (path (target r)) "indexes/books" then ok books_body
      else if String.eqb (path (target r)) "tasks/7" then
        if stuck || (length h <? 2)%nat then ok (task_body "enqueued" JNull)
        else ok (task_body "failed" failure)
      else Response {| status_code := 404; json_body := Ok not_found_body |}
  | POST =>
      Response {| status_code := 202;
                  json_body := Ok (JObj (<[ "taskUid"%string := JNum 7 ]>
                                         {[ "type"%string := JStr "documentAdditionOrUpdate" ]})) |}
  | _ => Response {| status_code := 405; json_body := Err (OtherError "JSONDecodeError") |}
  end.

Definition file (name sfx : string) : Path := {| path_str := name; suffix := sfx |}.

(** Two directories: movies holds three json files, mixed holds a text
    file followed by two json files. A file reads as its own name, and a
    json text decodes to the one-document list holding that text. *)
Definition listing (d : Path) : list Path :=
  if String.eqb (path_str d) "movies"
  then [file "a.json" ".json"; file "b.json" ".json"; file "c.json" ".json"]
  else if String.eqb (path_str d) "mixed"
  then [file "notes.txt" ".txt"; file "a.json" ".json"; file "b.json" ".json"]
  else [].

(** The surroundings of the scenarios, for a given server. *)
Definition env_of (srv : list request -> request -> outcome) (task_groups : bool) : env :=
  {| respond := srv;
     latency := fun _ _ => 1;
     use_task_groups := task_groups;
     iterdir := listing;
     path_exists := fun _ => true;
     read_text := fun p => Ok (path_str p);
     csv_DictReader := fun text _ => Ok [JStr text];
     json_loads := fun text => Ok (JList [JStr text]);
     text_lines := fun text => [text];
     IndexInfo_of := parse_IndexInfo;
     TaskInfo_of := parse_TaskInfo;
     TaskResult_of := parse_TaskResult;
     iso_to_date_time := parse_date |}.

Definition world_of (stuck task_groups : bool) : env := env_of (server stuck) task_groups.

(** A server that refuses the key, and a network that is down. *)
Definition unauthorized : env :=
  env_of (fun _ _ =>
            Response {| status_code := 401;
                        json_body := Ok (JObj {[ "code"%string := JStr "invalid_api_key" ]}) |})
         false.

Definition offline : env := env_of (fun _ _ => TransportFailure) false.

Definition movies : AsyncIndex := Client.new_index "movies".

(** The upload of the one document of a file of the scenario. *)
Definition upload (name : string) (primary_key : option string) : request :=
  Documents.post_documents movies [JStr name] primary_key.

(** A [create_index] that answers without a request. *)
Definition created (uid : string) (primary_key : option string) : M AsyncIndex :=
  mret {| uid := uid;
          primary_key := match primary_key with Some k => JStr k | None => JNull end;
          created_at := Some 3; updated_at := Some 3 |}.

End Scenario.

(** ** More of the client facade ([_client.py]) *)

Module Listing.
Import Models Http.

(** [_build_offset_limit_url]; [f"{offset}"] is the decimal form of the
    integer. *)
Definition _build_offset_limit_url (base : string) (offset limit : option Z) : string :=
  match offset, limit with
  | Some o, Some l => base +:+ "?offset=" +:+ pretty o +:+ "&limit=" +:+ pretty l
  | Some o, None => base +:+ "?offset=" +:+ pretty o
  | None, Some l => base +:+ "?limit=" +:+ pretty l
  | None, None => base
  end.

(** [response.json()["results"]] *)
Definition results_of (resp : response) : result json :=
  j ← json_body resp;
  subscript j "results".

(** The comprehension that builds an [IndexInfo] from every item of the
    results. *)
Fixpoint each_IndexInfo (E : env) (xs : list json) : result (list IndexInfo) :=
  match xs with
  | [] => Ok []
  | x :: rest =>
      info ← IndexInfo_of E x;
      infos ← each_IndexInfo E rest;
      mret (info :: infos)
  end.

(** [AsyncClient.get_raw_indexes] and [Client.get_raw_indexes] *)
Definition get_raw_indexes (E : env) (offset limit : option Z)
    : M (option (list IndexInfo)) :=
  let url := _build_offset_limit_url "indexes" offset limit in
  response ← HttpRequests_get E url;
  results ← lift (results_of response);
  if negb (Py.truthy results) then mret None
  else
    results ← lift (results_of response);
    xs ← lift (Token.iterate results);
    infos ← lift (each_IndexInfo E xs);
    mret (Some infos).

(** Whether a JSON value is [None]. *)
Definition is_None (j : json) : bool :=
  match j with JNull => true | _ => false end.

(** [_build_update_key_payload]: the dict comprehension over
    [json.loads(key.model_dump_json(by_alias=True))], which is the
    argument here. *)
Definition _build_update_key_payload (dumped : gmap string json) : gmap string json :=
  filter (fun kv => is_None kv.2 = false /\ kv.1 <> "key"%string) dumped.

End Listing.

(** ** More of the documents code ([index.py]) *)

Module Uploads.
Import Models Http Documents.

(** The request [update_documents] sends. *)
Definition put_documents (self : AsyncIndex) (documents : list json)
    (primary_key : option string) : request :=
  {| method := PUT;
     target := if Py.truthy_str primary_key
               then _build_encoded_url (_documents_url self)
                      [("primaryKey"%string, codepoints (default ""%string primary_key))]
               else plain_url (_documents_url self);
     payload := JsonBody (JList documents) |}.

(** [AsyncIndex.update_documents] and [Index.update_documents] *)
Definition update_documents (E : env) (self : AsyncIndex) (documents : list json)
    (primary_key : option string) : M TaskInfo :=
  let url :=
    if Py.truthy_str primary_key
    then _build_encoded_url (_documents_url self)
           [("primaryKey"%string, codepoints (default ""%string primary_key))]
    else plain_url (_documents_url self) in
  response ← HttpRequests_send E {| method := PUT; target := url;
                                    payload := JsonBody (JList documents) |};
  j ← lift (json_body response);
  lift (TaskInfo_of E j).

(** The loop of the task-group branch of
    [AsyncIndex.update_documents_from_directory]. *)
Fixpoint update_task_group_loop (E : env) (self : AsyncIndex) (primary_key : option string)
    (document_type : string) (csv_delimiter : option pystr)
    (entries : list (nat * Path)) (tasks : list (M TaskInfo)) (results : list TaskInfo)
    : M (list (M TaskInfo) * list TaskInfo) :=
  match entries with
  | [] => mret (tasks, results)
  | (i, p) :: rest =>
      if String.eqb (suffix p) ("." +:+ document_type) then
        documents ← lift (_async_load_documents_from_file E p csv_delimiter);
        if (i =? 0)%nat then
          r ← update_documents E self documents primary_key;
          update_task_group_loop E self primary_key document_type csv_delimiter rest tasks [r]
        else
          update_task_group_loop E self primary_key document_type csv_delimiter rest
            (tasks ++ [update_documents E self documents primary_key]) results
      else
        update_task_group_loop E self primary_key document_type csv_delimiter rest tasks results
  end.

(** [AsyncIndex.update_documents_from_directory] *)
Definition update_documents_from_directory (E : env) (self : AsyncIndex) (directory : Path)
    (primary_key : option string) (document_type : string)
    (csv_delimiter : option pystr) (combine_documents : bool) : M (list TaskInfo) :=
  if combine_documents then
    all_documents ← lift (load_matching E (iterdir E directory) document_type csv_delimiter);
    _ ← lift (_raise_on_no_documents all_documents document_type directory);
    let combined := Batch._combine_documents all_documents in
    response ← update_documents E self combined primary_key;
    mret [response]
  else if negb (use_task_groups E) then
    loaded ← lift (load_matching E (iterdir E directory) document_type csv_delimiter);
    let coroutines :=
      map (fun documents => update_documents E self documents primary_key) loaded in
    _ ← lift (_raise_on_no_documents coroutines document_type directory);
    first_alone_then_gather coroutines (fun r rs => r :: rs) (fun r => [r])
  else
    '(tasks, results) ← update_task_group_loop E self primary_key document_type csv_delimiter
                          (enumerate (iterdir E directory)) [] [];
    gathered ← gather tasks;
    let results := results ++ gathered in
    _ ← lift (_raise_on_no_documents results document_type directory);
    mret results.

(** The loop of the branch without combining of
    [Index.add_documents_from_directory], the blocking variant: each file
    is loaded and uploaded before the next one is looked at. *)
Fixpoint upload_each (E : env) (self : AsyncIndex) (primary_key : option string)
    (document_type : string) (csv_delimiter : option pystr) (paths : list Path)
    : M (list TaskInfo) :=
  match paths with
  | [] => mret []
  | p :: rest =>
      if String.eqb (suffix p) ("." +:+ document_type) then
        documents ← lift (_load_documents_from_file E p csv_delimiter);
        r ← add_documents E self documents primary_key;
        rs ← upload_each E self primary_key document_type csv_delimiter rest;
        mret (r :: rs)
      else upload_each E self primary_key document_type csv_delimiter rest
  end.

(** [Index.add_documents_from_directory] *)
Definition Index_add_documents_from_directory (E : env) (self : AsyncIndex) (directory : Path)
    (primary_key : option string) (document_type : string)
    (csv_delimiter : option pystr) (combine_documents : bool) : M (list TaskInfo) :=
  if combine_documents then
    all_documents ← lift (load_matching E (iterdir E directory) document_type csv_delimiter);
    _ ← lift (_raise_on_no_documents all_documents document_type directory);
    let combined := Batch._combine_documents all_documents in
    response ← add_documents E self combined primary_key;
    mret [response]
  else
    responses ← upload_each E self primary_key document_type csv_delimiter
                  (iterdir E directory);
    _ ← lift (_raise_on_no_documents responses document_type directory);
    mret responses.

(** The request [add_documents_from_raw_file] sends for a file with the
    text [data]. *)
Definition raw_request (self : AsyncIndex) (upload_path : Path) (primary_key : option string)
    (csv_delimiter : option pystr) (data : string) : request :=
  {| method := POST;
     target :=
       let parameters : list (string * pystr) :=
         (if Py.truthy_str primary_key
          then [("primaryKey"%string, codepoints (default ""%string primary_key))] else [])
         ++ (if given csv_delimiter
             then [("csvDelimiter"%string, default [] csv_delimiter)] else []) in
       match parameters with
       | [] => plain_url (_documents_url self)
       | _ => _build_encoded_url (_documents_url self) parameters
       end;
     payload := RawBody data (if String.eqb (suffix upload_path) ".csv" then "text/csv"
                              else "application/x-ndjson") |}.

(** Whether the document type is one the loaders accept. *)
Definition supported (document_type : string) : bool :=
  existsb (String.eqb ("." +:+ document_type)) [".json"; ".csv"; ".ndjson"]%string.

(** Raises some [MeilisearchError] and leaves the state as it was. *)
Definition refused (w : world) (outcome : result (list TaskInfo) * world) : Prop :=
  exists msg, outcome = (Err (MeilisearchError msg), w).

End Uploads.

(** ** Further scenarios *)

Module Cases.
Import Models Http.

(** A key for every index. *)
Definition key_star : Token.Key :=
  {| Token.uid := "star-uid"; Token.key := "secret"; Token.indexes := ["*"]%string |}.

(** The surroundings of the scenarios, except that the text of b.json
    does not decode. *)
Definition broken (task_groups : bool) : env :=
  {| respond := Scenario.server false;
     latency := fun _ _ => 1;
     use_task_groups := task_groups;
     iterdir := Scenario.listing;
     path_exists := fun _ => true;
     read_text := fun p => Ok (path_str p);
     csv_DictReader := fun text _ => Ok [JStr text];
     json_loads := fun text =>
       if String.eqb text "b.json" then Err (OtherError "JSONDecodeError")
       else Ok (JList [JStr text]);
     text_lines := fun text => [text];
     IndexInfo_of := Scenario.parse_IndexInfo;
     TaskInfo_of := Scenario.parse_TaskInfo;
     TaskResult_of := Scenario.parse_TaskResult;
     iso_to_date_time := Scenario.parse_date |}.

(** A server whose error code has index_not_found in the middle. *)
Definition renamed : env :=
  Scenario.env_of
    (fun _ _ =>
       Response {| status_code := 404;
                   json_body :=
                     Ok (JObj {[ "code"%string := JStr "v2_index_not_found_error" ]}) |})
    false.

(** A server that lists the index books, and one that lists nothing. *)
Definition lister : env :=
  Scenario.env_of
    (fun _ _ => Scenario.ok (JObj {[ "results"%string := JList [Scenario.books_body] ]}))
    false.

Definition empty_lister : env :=
  Scenario.env_of (fun _ _ => Scenario.ok (JObj {[ "results"%string := JList [] ]})) false.

(** A server that accepts every request as task 7. *)
Definition accepting (task_groups : bool) : env :=
  Scenario.env_of
    (fun _ _ =>
       Response {| status_code := 202;
                   json_body :=
                     Ok (JObj (<[ "taskUid"%string := JNum 7 ]>
                                 {[ "type"%string := JStr "documentAdditionOrUpdate" ]})) |})
    task_groups.

(** A key as the model dumps it: the secret, a name, and no
    description. *)
Definition dumped_key : gmap string json :=
  <[ "key"%string := JStr "secret" ]>
    (<[ "name"%string := JStr "search" ]>
       {[ "description"%string := JNull ]}).

End Cases.

(** * Properties *)

(** ** Batch partitioning *)

Section BatchFacts.
Context {doc : Type}.
Implicit Types (l : list doc) (b k m : nat).

Lemma combine_documents_concat (ll : list (list doc)) :
  Batch._combine_documents ll = concat ll.
Proof.
  unfold Batch._combine_documents.
  induction ll as [|y ll IH]; simpl; [done|].
  rewrite IH. f_equal.
  induction y as [|x y IHy]; simpl; [done|]. by rewrite IHy.
Qed.

Lemma chunks_concat b l m :
  concat (map (Batch.chunk b l) (seq 0 m)) = take (m * b) l.
Proof.
  induction m as [|m IH].
  - by rewrite take_0.
  - rewrite seq_S, map_app, concat_app, IH. simpl.
    rewrite app_nil_r. unfold Batch.chunk.
    rewrite take_take_drop. f_equal. lia.
Qed.

Lemma chunk_length b l k : (length (Batch.chunk b l k) <= b)%nat.
Proof. unfold Batch.chunk. rewrite length_take. lia. Qed.

(** A slice that starts inside the list is a chunk. *)
Lemma slice_chunk b l k :
  (k * b <= length l)%nat ->
  Py.slice l (Z.of_nat (k * b)) (Z.of_nat (k * b) + Z.of_nat b) = Batch.chunk b l k.
Proof.
  intros Hk. unfold Py.slice, Py.clamp, Batch.chunk.
  destruct (Z.ltb_spec (Z.of_nat (k * b)) 0) as [?|_]; [lia|].
  destruct (Z.ltb_spec (Z.of_nat (k * b) + Z.of_nat b) 0) as [?|_]; [lia|].
  rewrite (Z.min_l (Z.of_nat (k * b))) by lia.
  rewrite Nat2Z.id.
  destruct (Z.min_spec (Z.of_nat (k * b) + Z.of_nat b) (Z.of_nat (length l)))
    as [[Hlt ->]|[Hge ->]].
  - f_equal. lia.
  - rewrite !take_ge; [done| |]; rewrite length_drop; lia.
Qed.

Lemma range_len_ceil (n b : Z) :
  0 <= n -> 1 <= b -> Py.range_len 0 n b = Batch.ceil_div n b.
Proof.
  intros Hn Hb. unfold Py.range_len, Batch.ceil_div.
  destruct (Z.ltb_spec 0 b) as [_|?]; [|lia].
  destruct (Z.ltb_spec 0 n) as [Hpos|Hz].
  - replace (n + b - 1) with (n - 0 - 1 + 1 * b) by lia.
    rewrite Z.div_add by lia. lia.
  - assert (n = 0) as -> by lia.
    rewrite Z.div_small; lia.
Qed.

Lemma ceil_div_covers (n b : Z) :
  0 <= n -> 1 <= b -> n <= Batch.ceil_div n b * b.
Proof.
  intros Hn Hb. unfold Batch.ceil_div.
  pose proof (Z.div_mod (n + b - 1) b ltac:(lia)) as Hdm.
  pose proof (Z.mod_pos_bound (n + b - 1) b ltac:(lia)). nia.
Qed.

Lemma ceil_div_tight (n b : Z) :
  0 <= n -> 1 <= b -> (Batch.ceil_div n b - 1) * b < n \/ Batch.ceil_div n b = 0.
Proof.
  intros Hn Hb. unfold Batch.ceil_div.
  pose proof (Z.div_mod (n + b - 1) b ltac:(lia)) as Hdm.
  pose proof (Z.mod_pos_bound (n + b - 1) b ltac:(lia)). left. nia.
Qed.

(** What [_batch] yields, chunk by chunk. *)
Lemma batch_chunks l (batch_size : Z) :
  1 <= batch_size ->
  Batch._batch l batch_size =
    Ok (map (Batch.chunk (Z.to_nat batch_size) l)
            (seq 0 (Z.to_nat (Batch.ceil_div (Z.of_nat (length l)) batch_size)))).
Proof.
  intros Hb. unfold Batch._batch, Py.range.
  destruct (Z.eqb_spec batch_size 0) as [?|_]; [lia|].
  rewrite range_len_ceil by lia.
  f_equal. rewrite map_map. apply map_ext_in. intros k Hk. apply in_seq in Hk.
  set (n := Z.of_nat (length l)) in *.
  destruct (ceil_div_tight n batch_size ltac:(lia) Hb) as [Ht|Hz]; [|lia].
  assert (Z.of_nat k <= Batch.ceil_div n batch_size - 1) as Hle by lia.
  assert (Z.of_nat k * batch_size <= (Batch.ceil_div n batch_size - 1) * batch_size)
    as Hmul by nia.
  rewrite <- (slice_chunk (Z.to_nat batch_size) l k) by (unfold n in *; nia).
  f_equal; lia.
Qed.

(** C3. For a document list of N documents and a batch size B >= 1,
    [_batch] yields ceil(N/B) chunks, each of at most B documents, and
    [_combine_documents] of the chunks is the original list, so the
    documents keep their order within and across chunks. *)
Theorem batch_partition l (batch_size : Z) :
  1 <= batch_size ->
  exists chunks,
    Batch._batch l batch_size = Ok chunks
    /\ Z.of_nat (length chunks) = Batch.ceil_div (Z.of_nat (length l)) batch_size
    /\ Forall (fun c => Z.of_nat (length c) <= batch_size) chunks
    /\ Batch._combine_documents chunks = l.
Proof.
  intros Hb. eexists. split; [by apply batch_chunks|].
  set (n := Z.of_nat (length l)).
  assert (0 <= Batch.ceil_div n batch_size) as Hnn.
  { unfold Batch.ceil_div. apply Z.div_pos; lia. }
  split; [|split].
  - rewrite length_map, length_seq. lia.
  - apply Forall_forall. intros c Hc.
    apply list_elem_of_In, in_map_iff in Hc as (k & <- & _).
    pose proof (chunk_length (Z.to_nat batch_size) l k). lia.
  - rewrite combine_documents_concat, chunks_concat.
    apply take_ge.
    pose proof (ceil_div_covers n batch_size ltac:(lia) Hb). unfold n in *. nia.
Qed.

End BatchFacts.

(** The three chunks of seven documents in batches of three. *)
Lemma batch_partition_witness :
  1 <= 3 /\
  exists chunks,
    Batch._batch [1; 2; 3; 4; 5; 6; 7] 3 = Ok chunks
    /\ Z.of_nat (length chunks) = Batch.ceil_div (Z.of_nat (length [1; 2; 3; 4; 5; 6; 7])) 3
    /\ Forall (fun c => Z.of_nat (length c) <= 3) chunks
    /\ Batch._combine_documents chunks = [1; 2; 3; 4; 5; 6; 7].
Proof. split; [lia | apply (batch_partition [1; 2; 3; 4; 5; 6; 7] 3); lia]. Defined.

Example batch_seven_by_three :
  Batch._batch [1; 2; 3; 4; 5; 6; 7] 3 = Ok [[1; 2; 3]; [4; 5; 6]; [7]].
Proof. reflexivity. Qed.

Example batch_zero_raises :
  Batch._batch [1; 2] 0 = Err (ValueError "range() arg 3 must not be zero").
Proof. reflexivity. Qed.

Example batch_negative_is_empty : Batch._batch [1; 2] (-1) = Ok [].
Proof. reflexivity. Qed.

(** ** Tenant tokens *)

Section TokenFacts.
Context {token : Type}.
Variable jwt_encode : gmap string json -> string -> token.
Variable jwt_decode : token -> string -> option (gmap string json).
Variable int_timestamp : Token.datetime -> Z.
Hypothesis decode_encode : forall p k, jwt_decode (jwt_encode p k) k = Some p.

Local Abbreviation restriction_message :=
  "Invalid index. The token cannot be less restrictive than the API key"%string.

Lemma not_in_str (n : string) (l : list string) :
  Token.not_in (JStr n) l = negb (bool_decide (n ∈ l)).
Proof.
  unfold Token.not_in. f_equal.
  induction l as [|k l IH].
  - symmetry. apply bool_decide_eq_false_2. set_solver.
  - cbn [existsb Token.eq_str]. rewrite IH.
    destruct (String.eqb_spec n k) as [->|Hne]; cbn [orb].
    + symmetry. apply bool_decide_eq_true_2. set_solver.
    + apply bool_decide_ext. set_solver.
Qed.

Lemma check_indexes_accepts api_key (names : list string) :
  (forall n, n ∈ names -> n ∈ Token.indexes api_key) ->
  Token.check_indexes api_key (JStr <$> names) = Ok tt.
Proof.
  induction names as [|n names IH]; intros Hall; simpl; [done|].
  rewrite not_in_str, (bool_decide_eq_true_2 (n ∈ Token.indexes api_key)) by set_solver.
  rewrite andb_false_r. apply IH. set_solver.
Qed.

Lemma check_indexes_rejects api_key (names : list string) :
  Token.indexes api_key <> ["*"%string] ->
  (exists n, n ∈ names /\ n ∉ Token.indexes api_key) ->
  Token.check_indexes api_key (JStr <$> names) = Err (InvalidRestriction restriction_message).
Proof.
  intros Hwild (n & Hin & Hout).
  induction names as [|m names IH]; simpl; [set_solver|].
  rewrite (bool_decide_eq_false_2 (Token.indexes api_key = ["*"%string])) by done.
  rewrite not_in_str. simpl.
  destruct (decide (m ∈ Token.indexes api_key)) as [Hm|Hm].
  - rewrite (bool_decide_eq_true_2 _ Hm). simpl. apply IH. set_solver.
  - by rewrite (bool_decide_eq_false_2 _ Hm).
Qed.

Lemma check_restriction_named (o : gmap string json) (names : list string) api_key :
  o !! "indexes"%string = Some (JList (JStr <$> names)) ->
  Token.check_restriction (JObj o) api_key = Token.check_indexes api_key (JStr <$> names).
Proof.
  intros Ho. unfold Token.check_restriction. rewrite Ho. simpl.
  by destruct names.
Qed.

(** What the function returns once the restriction check has passed. *)
Lemma generate_after_check now search_rules api_key expires_at :
  Token.check_restriction search_rules api_key = Ok tt ->
  (forall e, expires_at = Some e -> now < e) ->
  exists tok payload,
    Token.generate_tenant_token jwt_encode int_timestamp now search_rules api_key expires_at
      = Ok tok
    /\ jwt_decode tok (Token.key api_key) = Some payload
    /\ payload !! "searchRules"%string = Some search_rules
    /\ payload !! "apiKeyUid"%string = Some (JStr (Token.uid api_key))
    /\ payload !! "exp"%string = (fun e => JNum (int_timestamp e)) <$> expires_at.
Proof.
  intros Hcheck Hfuture. unfold Token.generate_tenant_token. rewrite Hcheck. simpl.
  destruct expires_at as [e|].
  - specialize (Hfuture e eq_refl).
    destruct (Z.leb_spec e now) as [?|_]; [lia|].
    do 2 eexists. split; [done|]. split; [apply decode_encode|].
    by simplify_map_eq.
  - do 2 eexists. split; [done|]. split; [apply decode_encode|].
    by simplify_map_eq.
Qed.

(** C4 (as amended). When [search_rules] is a mapping whose "indexes"
    entry names the requested indexes and the key's indexes are not the
    wildcard: a requested index outside the key's indexes makes the call
    raise [InvalidRestriction], whatever [expires_at] is; and when every
    requested index is among the key's and [expires_at] is [None] or
    strictly in the future, the call returns a token whose decoded payload
    has [searchRules] equal to the input and [apiKeyUid] equal to the key's
    uid. *)
Theorem tenant_token_restriction now (o : gmap string json) (names : list string)
    api_key expires_at :
  o !! "indexes"%string = Some (JList (JStr <$> names)) ->
  Token.indexes api_key <> ["*"%string] ->
  ((exists n, n ∈ names /\ n ∉ Token.indexes api_key) ->
   Token.generate_tenant_token jwt_encode int_timestamp now (JObj o) api_key expires_at
     = Err (InvalidRestriction restriction_message))
  /\ ((forall n, n ∈ names -> n ∈ Token.indexes api_key) ->
      (forall e, expires_at = Some e -> now < e) ->
      exists tok payload,
        Token.generate_tenant_token jwt_encode int_timestamp now (JObj o) api_key expires_at
          = Ok tok
        /\ jwt_decode tok (Token.key api_key) = Some payload
        /\ payload !! "searchRules"%string = Some (JObj o)
        /\ payload !! "apiKeyUid"%string = Some (JStr (Token.uid api_key))).
Proof.
  intros Ho Hwild. split.
  - intros Hbad. unfold Token.generate_tenant_token.
    rewrite (check_restriction_named o names api_key Ho).
    by rewrite (check_indexes_rejects api_key names Hwild Hbad).
  - intros Hall Hfuture.
    destruct (generate_after_check now (JObj o) api_key expires_at)
      as (tok & payload & Hgen & Hdec & Hsr & Huid & _); [|done|].
    + rewrite (check_restriction_named o names api_key Ho).
      by apply check_indexes_accepts.
    + by exists tok, payload.
Qed.

(** C5 (as amended). When the restriction check passes: an [expires_at]
    that is not strictly in the future makes the call raise [ValueError],
    so no token is produced; an [expires_at] strictly in the future gives a
    token whose decoded [exp] is the integer timestamp of [expires_at]. *)
Theorem tenant_token_expiry now search_rules api_key (e : Token.datetime) :
  Token.check_restriction search_rules api_key = Ok tt ->
  (e <= now ->
   Token.generate_tenant_token jwt_encode int_timestamp now search_rules api_key (Some e)
     = Err (ValueError "expires_at must be a time in the future"))
  /\ (now < e ->
      exists tok payload,
        Token.generate_tenant_token jwt_encode int_timestamp now search_rules api_key (Some e)
          = Ok tok
        /\ jwt_decode tok (Token.key api_key) = Some payload
        /\ payload !! "exp"%string = Some (JNum (int_timestamp e))).
Proof.
  intros Hcheck. split.
  - intros Hpast. unfold Token.generate_tenant_token. rewrite Hcheck. simpl.
    by destruct (Z.leb_spec e now) as [_|?]; [|lia].
  - intros Hfuture.
    destruct (generate_after_check now search_rules api_key (Some e) Hcheck)
      as (tok & payload & Hgen & Hdec & _ & _ & Hexp).
    + intros e' [= <-]. done.
    + by exists tok, payload.
Qed.

End TokenFacts.

Lemma plain_decode_encode (p : gmap string json) (k : string) :
  Token.plain_decode (Token.plain_encode p k) k = Some p.
Proof. unfold Token.plain_decode, Token.plain_encode. simpl. by rewrite String.eqb_refl. Qed.

(** The key allows a and b: asking for c is refused, asking for a gives a
    token that decodes to the rules and the uid of the key. *)
Lemma tenant_token_restriction_witness :
  Token.generate_tenant_token Token.plain_encode Token.whole_seconds Scenario.today
    (JObj (Scenario.rules ["c"%string])) Scenario.key_ab None
  = Err (InvalidRestriction
           "Invalid index. The token cannot be less restrictive than the API key")
  /\ exists tok payload,
      Token.generate_tenant_token Token.plain_encode Token.whole_seconds Scenario.today
        (JObj (Scenario.rules ["a"%string])) Scenario.key_ab (Some Scenario.tomorrow) = Ok tok
      /\ Token.plain_decode tok (Token.key Scenario.key_ab) = Some payload
      /\ payload !! "searchRules"%string = Some (JObj (Scenario.rules ["a"%string]))
      /\ payload !! "apiKeyUid"%string = Some (JStr "key-uid").
Proof.
  split.
  - apply (tenant_token_restriction Token.plain_encode Token.plain_decode Token.whole_seconds
             plain_decode_encode Scenario.today (Scenario.rules ["c"%string]) ["c"%string]
             Scenario.key_ab None).
    + reflexivity.
    + discriminate.
    + exists "c"%string. split; [set_solver|]. intros Hin. set_solver.
  - apply (tenant_token_restriction Token.plain_encode Token.plain_decode Token.whole_seconds
             plain_decode_encode Scenario.today (Scenario.rules ["a"%string]) ["a"%string]
             Scenario.key_ab (Some Scenario.tomorrow)).
    + reflexivity.
    + discriminate.
    + intros n Hn. set_solver.
    + intros e [= <-]. reflexivity.
Defined.

(** C4 as stated fails: the requested index is among the key's, the key is
    not a wildcard key, and yet no token is returned, because the expiry
    lies in the past. *)
Lemma tenant_token_restriction_counterexample :
  Scenario.rules ["a"%string] !! "indexes"%string = Some (JList [JStr "a"])
  /\ Token.indexes Scenario.key_ab <> ["*"%string]
  /\ (forall n, n ∈ ["a"%string] -> n ∈ Token.indexes Scenario.key_ab)
  /\ Token.generate_tenant_token Token.plain_encode Token.whole_seconds Scenario.today
       (JObj (Scenario.rules ["a"%string])) Scenario.key_ab (Some Scenario.yesterday)
     = Err (ValueError "expires_at must be a time in the future").
Proof.
  split; [reflexivity|]. split; [discriminate|]. split; [|reflexivity].
  intros n Hn. set_solver.
Qed.

(** Tomorrow is accepted and becomes the [exp] claim; yesterday is
    refused. *)
Lemma tenant_token_expiry_witness :
  Token.generate_tenant_token Token.plain_encode Token.whole_seconds Scenario.today
    (JObj (Scenario.rules ["a"%string])) Scenario.key_ab (Some Scenario.yesterday)
  = Err (ValueError "expires_at must be a time in the future")
  /\ exists tok payload,
      Token.generate_tenant_token Token.plain_encode Token.whole_seconds Scenario.today
        (JObj (Scenario.rules ["a"%string])) Scenario.key_ab (Some Scenario.tomorrow) = Ok tok
      /\ Token.plain_decode tok (Token.key Scenario.key_ab) = Some payload
      /\ payload !! "exp"%string = Some (JNum 1700086400).
Proof.
  split.
  - apply (tenant_token_expiry Token.plain_encode Token.plain_decode Token.whole_seconds
             plain_decode_encode Scenario.today (JObj (Scenario.rules ["a"%string]))
             Scenario.key_ab Scenario.yesterday).
    + reflexivity.
    + unfold Scenario.yesterday, Scenario.today. lia.
  - apply (tenant_token_expiry Token.plain_encode Token.plain_decode Token.whole_seconds
             plain_decode_encode Scenario.today (JObj (Scenario.rules ["a"%string]))
             Scenario.key_ab Scenario.tomorrow).
    + reflexivity.
    + reflexivity.
Defined.

(** C5 as stated fails: the expiry lies in the past, and the call raises
    [InvalidRestriction], not [ValueError], because the restriction check
    comes first. *)
Lemma tenant_token_expiry_counterexample :
  Scenario.yesterday <= Scenario.today
  /\ Token.generate_tenant_token Token.plain_encode Token.whole_seconds Scenario.today
       (JObj (Scenario.rules ["c"%string])) Scenario.key_ab (Some Scenario.yesterday)
     = Err (InvalidRestriction
              "Invalid index. The token cannot be less restrictive than the API key")
  /\ forall msg,
      Token.generate_tenant_token Token.plain_encode Token.whole_seconds Scenario.today
        (JObj (Scenario.rules ["c"%string])) Scenario.key_ab (Some Scenario.yesterday)
      <> Err (ValueError msg).
Proof.
  split; [unfold Scenario.yesterday, Scenario.today; lia|].
  split; [reflexivity|]. intros msg. discriminate.
Qed.

(** ** The client facade *)

Section ClientFacts.
Import Models Http.
Variable E : env.
Variable create_index : string -> option string -> M AsyncIndex.

Lemma get_or_create_index_cases uid primary_key w :
  Client.get_or_create_index E create_index uid primary_key w =
    match Client.get_index E uid w with
    | (Ok index_instance, w') => (Ok index_instance, w')
    | (Err e, w') =>
        if Client.index_not_found e then create_index uid primary_key w' else (Err e, w')
    end.
Proof.
  unfold Client.get_or_create_index.
  destruct (Client.get_index E uid w) as [[i|e] w']; [done|].
  destruct e; try done. simpl.
  by destruct (Py.contains "index_not_found" code).
Qed.

(** C7. [get_or_create_index] catches the [MeilisearchApiError] whose code
    contains index_not_found and goes on with [create_index]; a
    [MeilisearchApiError] with another code and an exception of any other
    kind come out unchanged, with [create_index] not called; and an index
    that [get_index] found is returned as it is. *)
Theorem get_or_create_index_catches uid primary_key w w' :
  (forall sc code,
      Client.get_index E uid w = (Err (MeilisearchApiError sc code), w') ->
      Py.contains "index_not_found" code = true ->
      Client.get_or_create_index E create_index uid primary_key w
        = create_index uid primary_key w')
  /\ (forall sc code,
      Client.get_index E uid w = (Err (MeilisearchApiError sc code), w') ->
      Py.contains "index_not_found" code = false ->
      Client.get_or_create_index E create_index uid primary_key w
        = (Err (MeilisearchApiError sc code), w'))
  /\ (forall e,
      Client.get_index E uid w = (Err e, w') ->
      (forall sc code, e <> MeilisearchApiError sc code) ->
      Client.get_or_create_index E create_index uid primary_key w = (Err e, w'))
  /\ (forall index_instance,
      Client.get_index E uid w = (Ok index_instance, w') ->
      Client.get_or_create_index E create_index uid primary_key w = (Ok index_instance, w')).
Proof.
  repeat split.
  - intros sc code Hget Hcode. rewrite get_or_create_index_cases, Hget. simpl.
    by rewrite Hcode.
  - intros sc code Hget Hcode. rewrite get_or_create_index_cases, Hget. simpl.
    by rewrite Hcode.
  - intros e Hget Hkind. rewrite get_or_create_index_cases, Hget.
    destruct e as [| | | | |sc code| | | |]; try done. by destruct (Hkind sc code).
  - intros i Hget. by rewrite get_or_create_index_cases, Hget.
Qed.

(** C10. When the server answers the lookup of an index: [get_raw_index]
    returns [None] if and only if the status is 404, and raises nothing
    then; with any other status it builds the [IndexInfo] from the JSON
    body; [get_index], given the same 404 response, raises a
    [MeilisearchApiError] and returns nothing. *)
Theorem get_raw_index_none_iff_404 uid w resp :
  respond E (history w) (Client.index_request uid) = Response resp ->
  ((Client.get_raw_index E uid w).1 = Ok None <-> status_code resp = 404)
  /\ (status_code resp <> 404 -> (Client.get_raw_index E uid w).1 = Client.raw_index_of E resp)
  /\ (status_code resp = 404 ->
      (Client.get_index E uid w).1 = Err (MeilisearchApiError 404 (error_code resp))).
Proof.
  intros Hresp.
  assert ((Client.get_raw_index E uid w).1 =
          if status_code resp =? 404 then Ok None else Client.raw_index_of E resp) as Hraw.
  { unfold Client.get_raw_index, httpx_send, send, mbind, M_bind, mret, M_ret.
    rewrite Hresp. simpl.
    destruct (status_code resp =? 404); [done|].
    unfold Client.raw_index_of, lift, mbind, result_bind.
    destruct (json_body resp) as [j|e]; [|done]. simpl.
    by destruct (IndexInfo_of E j). }
  split; [|split].
  - rewrite Hraw. destruct (Z.eqb_spec (status_code resp) 404) as [H404|Hne].
    + done.
    + split; [|done]. unfold Client.raw_index_of, mbind, result_bind, mret, result_ret.
      destruct (json_body resp) as [j|e]; [|done].
      by destruct (IndexInfo_of E j).
  - intros Hne. rewrite Hraw. by destruct (Z.eqb_spec (status_code resp) 404).
  - intros H404.
    unfold Client.get_index, Client.fetch_info, HttpRequests_get, HttpRequests_send, send.
    unfold mbind, M_bind, mret, M_ret. simpl.
    change {| method := GET; target := plain_url ("indexes/" +:+ uid); payload := NoBody |}
      with (Client.index_request uid).
    rewrite Hresp, H404. done.
Qed.

(** Through the transport adapter, a response outside 2xx makes
    [get_index] raise [MeilisearchApiError] with the status and the code of
    the body, and a transport failure makes it raise
    [MeilisearchCommunicationError]. *)
Lemma get_index_raises uid w :
  (Client.get_index E uid w).1 =
    match respond E (history w) (Client.index_request uid) with
    | TransportFailure => Err MeilisearchCommunicationError
    | Response resp =>
        if (200 <=? status_code resp) && (status_code resp <? 300)
        then (Client.get_index E uid w).1
        else Err (MeilisearchApiError (status_code resp) (error_code resp))
    end.
Proof.
  unfold Client.get_index, Client.fetch_info, HttpRequests_get, HttpRequests_send, send.
  unfold mbind, M_bind, mret, M_ret. simpl.
  change {| method := GET; target := plain_url ("indexes/" +:+ uid); payload := NoBody |}
    with (Client.index_request uid).
  destruct (respond E (history w) (Client.index_request uid)) as [resp|]; [|done].
  by destruct ((200 <=? status_code resp) && (status_code resp <? 300)).
Qed.

End ClientFacts.

(** The index movies is unknown to the server of the scenario: the lookup
    fails with index_not_found and the index is created. *)
Lemma get_or_create_index_catches_witness :
  Client.get_or_create_index (Scenario.world_of false false) Scenario.created
    "movies" (Some "id"%string) Http.fresh
  = Scenario.created "movies" (Some "id"%string)
      (Client.get_index (Scenario.world_of false false) "movies" Http.fresh).2.
Proof.
  apply (proj1 (get_or_create_index_catches (Scenario.world_of false false) Scenario.created
                  "movies" (Some "id"%string) Http.fresh
                  (Client.get_index (Scenario.world_of false false) "movies" Http.fresh).2)
           404 "index_not_found"%string).
  - reflexivity.
  - reflexivity.
Defined.

(** The lookup of movies is answered with a 404: [get_raw_index] returns
    [None], [get_index] raises. *)
Lemma get_raw_index_none_iff_404_witness :
  (Client.get_raw_index (Scenario.world_of false false) "movies" Http.fresh).1 = Ok None
  /\ (Client.get_index (Scenario.world_of false false) "movies" Http.fresh).1
     = Err (MeilisearchApiError 404 "index_not_found").
Proof.
  pose proof (get_raw_index_none_iff_404 (Scenario.world_of false false) "movies" Http.fresh
                {| Http.status_code := 404; Http.json_body := Ok Scenario.not_found_body |}
                eq_refl) as (Hiff & _ & Hget).
  split.
  - apply Hiff. reflexivity.
  - apply Hget. reflexivity.
Defined.

Example get_or_create_index_unauthorized :
  Client.get_or_create_index Scenario.unauthorized Scenario.created "movies" None Http.fresh
  = (Err (MeilisearchApiError 401 "invalid_api_key"),
     {| Http.rounds := [[Client.index_request "movies"]]; Http.clock := 1 |}).
Proof. reflexivity. Qed.

Example get_or_create_index_offline :
  Client.get_or_create_index Scenario.offline Scenario.created "movies" None Http.fresh
  = (Err MeilisearchCommunicationError,
     {| Http.rounds := [[Client.index_request "movies"]]; Http.clock := 1 |}).
Proof. reflexivity. Qed.

Example get_or_create_index_creates_movies :
  (Client.get_or_create_index (Scenario.world_of false false) Scenario.created
     "movies" (Some "id"%string) Http.fresh).1
  = Ok {| Models.uid := "movies"; Models.primary_key := JStr "id";
          Models.created_at := Some 3; Models.updated_at := Some 3 |}.
Proof. reflexivity. Qed.

Example get_raw_index_books :
  (Client.get_raw_index (Scenario.world_of false false) "books" Http.fresh).1
  = Ok (Some {| Models.info_uid := "books"; Models.info_primary_key := Some "isbn"%string |}).
Proof. reflexivity. Qed.

Example get_or_create_index_finds_books :
  (Client.get_or_create_index (Scenario.world_of false false) Scenario.created
     "books" None Http.fresh).1
  = Ok {| Models.uid := "books"; Models.primary_key := JStr "isbn";
          Models.created_at := Some 1; Models.updated_at := Some 2 |}.
Proof. reflexivity. Qed.

(** ** The task poller *)

Section PollerFacts.
Import Models Http.
Variable E : env.
Variable task_id : Z.
Variable interval_in_ms : Z.

Local Abbreviation world_at := (Poller.world_at E task_id interval_in_ms).
Local Abbreviation pending_at := (Poller.pending_at E task_id interval_in_ms).

(** A fetch sends the request for the task and nothing else, whatever
    comes back. *)
Lemma get_task_world w :
  (Poller.get_task E task_id w).2 =
    {| rounds := rounds w ++ [[Poller.task_request task_id]];
       clock := clock w + latency E (history w) (Poller.task_request task_id) |}.
Proof.
  unfold Poller.get_task, HttpRequests_send, send, mbind, M_bind. simpl.
  destruct (respond E (history w) (Poller.task_request task_id)) as [resp|]; [|done].
  destruct ((200 <=? status_code resp) && (status_code resp <? 300)); [|done].
  simpl. unfold lift. destruct (json_body resp); done.
Qed.

Lemma world_at_succ k w :
  world_at (S k) w = (sleep interval_in_ms (Poller.get_task E task_id (world_at k w)).2).2.
Proof.
  revert w. induction k as [|k IH]; intros w; [done|].
  change (world_at (S (S k)) w)
    with (world_at (S k) (sleep interval_in_ms (Poller.get_task E task_id w).2).2).
  by rewrite IH.
Qed.

Lemma world_at_clock k w :
  clock (world_at (S k) w)
  = clock (world_at k w)
    + latency E (history (world_at k w)) (Poller.task_request task_id) + interval_in_ms.
Proof. rewrite world_at_succ, get_task_world. done. Qed.

(** Polling sends nothing but fetches of the task. *)
Lemma world_at_history k w :
  history (world_at k w) = history w ++ replicate k (Poller.task_request task_id).
Proof.
  induction k as [|k IH].
  - simpl. by rewrite app_nil_r.
  - rewrite world_at_succ, get_task_world. unfold history in *. simpl.
    rewrite concat_app, IH. simpl.
    rewrite <- app_assoc. f_equal.
    change (replicate k (Poller.task_request task_id) ++ [Poller.task_request task_id]
            = replicate (S k) (Poller.task_request task_id)).
    by rewrite replicate_S_end.
Qed.

Lemma unsuccessful_terminal s : Poller.unsuccessful s = true -> Poller.terminal s = true.
Proof. by destruct s. Qed.

Lemma poll_step fuel timeout_in_ms raise_for_status start w k :
  pending_at w k ->
  Poller.deadline_passed timeout_in_ms start (world_at k w) = false ->
  Poller.poll (S fuel) E task_id timeout_in_ms interval_in_ms raise_for_status start
    (world_at k w)
  = Poller.poll fuel E task_id timeout_in_ms interval_in_ms raise_for_status start
      (world_at (S k) w).
Proof.
  intros (snapshot & Hfetch & Hpending) Hdeadline.
  rewrite world_at_succ. simpl. rewrite Hdeadline.
  destruct (Poller.get_task E task_id (world_at k w)) as [r w1]. simpl in *.
  by rewrite Hfetch, Hpending.
Qed.

Lemma poll_times_out raise_for_status t start w :
  (forall h r, 0 < latency E h r + interval_in_ms) ->
  (forall k, pending_at w k) ->
  forall n k,
    t - (clock (world_at k w) - start) <= Z.of_nat n ->
    exists k',
      Poller.poll (S n) E task_id (Some t) interval_in_ms raise_for_status start (world_at k w)
      = Some (Err MeilisearchTimeoutError, world_at k' w).
Proof.
  intros Hlatency Hpending.
  induction n as [|n IH]; intros k Hleft.
  - exists k. simpl.
    destruct (Z.leb_spec t (clock (world_at k w) - start)) as [_|?]; [done|lia].
  - destruct (Poller.deadline_passed (Some t) start (world_at k w)) eqn:Hdeadline.
    + exists k. simpl in *. by rewrite Hdeadline.
    + rewrite (poll_step (S n) (Some t) raise_for_status start w k (Hpending k) Hdeadline).
      apply IH. rewrite world_at_clock.
      specialize (Hlatency (history (world_at k w)) (Poller.task_request task_id)). lia.
Qed.

Lemma poll_never_returns raise_for_status timeout_in_ms start w :
  (forall k, pending_at w k) ->
  forall fuel k snapshot w',
    Poller.poll fuel E task_id timeout_in_ms interval_in_ms raise_for_status start (world_at k w)
    <> Some (Ok snapshot, w').
Proof.
  intros Hpending. induction fuel as [|fuel IH]; intros k snapshot w'; [done|].
  destruct (Poller.deadline_passed timeout_in_ms start (world_at k w)) eqn:Hdeadline.
  - simpl. by rewrite Hdeadline.
  - rewrite (poll_step fuel timeout_in_ms raise_for_status start w k (Hpending k) Hdeadline).
    apply IH.
Qed.


Lemma poll_reaches raise_for_status timeout_in_ms start snapshot k :
  forall w,
    (forall j, (j < k)%nat -> pending_at w j) ->
    (Poller.get_task E task_id (world_at k w)).1 = Ok snapshot ->
    Poller.terminal (status snapshot) = true ->
    (forall j, (j <= k)%nat ->
               Poller.deadline_passed timeout_in_ms start (world_at j w) = false) ->
    forall fuel, (k < fuel)%nat ->
      Poller.poll fuel E task_id timeout_in_ms interval_in_ms raise_for_status start w
      = Some (if raise_for_status && Poller.unsuccessful (status snapshot)
              then Err (MeilisearchTaskFailedError (error snapshot))
              else Ok snapshot,
              (Poller.get_task E task_id (world_at k w)).2).
Proof.
  induction k as [|k IH]; intros w Hpending Hfetch Hterminal Hdeadline fuel Hfuel.
  - destruct fuel as [|fuel]; [lia|].
    pose proof (Hdeadline 0%nat ltac:(lia)) as Hfirst. simpl in *. rewrite Hfirst.
    destruct (Poller.get_task E task_id w) as [r w1]. simpl in *.
    rewrite Hfetch, Hterminal.
    by destruct (raise_for_status && Poller.unsuccessful (status snapshot)).
  - destruct fuel as [|fuel]; [lia|].
    change w with (world_at 0 w) at 1.
    rewrite poll_step; [|apply Hpending; lia|apply Hdeadline; lia].
    change (world_at 1 w) with (sleep interval_in_ms (Poller.get_task E task_id w).2).2.
    change (world_at (S k) w)
      with (world_at k (sleep interval_in_ms (Poller.get_task E task_id w).2).2) in *.
    apply IH; [|done|done| |lia].
    + intros j Hj. apply (Hpending (S j)). lia.
    + intros j Hj. apply (Hdeadline (S j)). lia.
Qed.

(** C2. A task that is enqueued or processing at the first [k] fetches and
    failed or canceled at the next one, every one of these fetches starting
    before the deadline: with [raise_for_status] unset [wait_for_task]
    returns that snapshot, with [raise_for_status] set it raises
    [MeilisearchTaskFailedError] with the error payload of the snapshot. *)
Theorem wait_for_task_failed timeout_in_ms w k snapshot :
  (forall j, (j < k)%nat -> pending_at w j) ->
  (Poller.get_task E task_id (world_at k w)).1 = Ok snapshot ->
  Poller.unsuccessful (status snapshot) = true ->
  (forall j, (j <= k)%nat ->
             Poller.deadline_passed timeout_in_ms (clock w) (world_at j w) = false) ->
  forall fuel, (k < fuel)%nat ->
    Poller.wait_for_task fuel E task_id timeout_in_ms interval_in_ms false w
      = Some (Ok snapshot, (Poller.get_task E task_id (world_at k w)).2)
    /\ Poller.wait_for_task fuel E task_id timeout_in_ms interval_in_ms true w
      = Some (Err (MeilisearchTaskFailedError (error snapshot)),
              (Poller.get_task E task_id (world_at k w)).2).
Proof.
  intros Hpending Hfetch Hbad Hdeadline fuel Hfuel.
  pose proof (unsuccessful_terminal _ Hbad) as Hterminal.
  unfold Poller.wait_for_task. split.
  - by rewrite (poll_reaches false timeout_in_ms (clock w) snapshot k w).
  - rewrite (poll_reaches true timeout_in_ms (clock w) snapshot k w) by done.
    by rewrite Hbad.
Qed.

End PollerFacts.


Example wait_for_task_stuck_run :
  Poller.wait_for_task 5 (Scenario.world_of true false) 7 (Some 100) 50 true Http.fresh
  = Some (Err MeilisearchTimeoutError,
          {| Http.rounds := [[Poller.task_request 7]; [Poller.task_request 7]];
             Http.clock := 102 |}).
Proof. reflexivity. Qed.

(** Task 7 is enqueued at the first two fetches and failed at the third:
    the snapshot is returned, or its error payload is raised. *)
Lemma wait_for_task_failed_witness :
  let snapshot :=
    {| Models.result_uid := 7; Models.status := Models.failed;
       Models.result_type := "documentAdditionOrUpdate";
       Models.error := Some Scenario.failure; Models.details := None |} in
  exists w',
    Poller.wait_for_task 3 (Scenario.world_of false false) 7 (Some 5000) 50 false Http.fresh
      = Some (Ok snapshot, w')
    /\ Poller.wait_for_task 3 (Scenario.world_of false false) 7 (Some 5000) 50 true Http.fresh
      = Some (Err (MeilisearchTaskFailedError (Some Scenario.failure)), w').
Proof.
  intros snapshot. eexists.
  apply (wait_for_task_failed (Scenario.world_of false false) 7 50 (Some 5000) Http.fresh
           2%nat snapshot).
  - intros j Hj. destruct j as [|[|j]]; [eexists; split; reflexivity ..|lia].
  - reflexivity.
  - reflexivity.
  - intros j Hj. destruct j as [|[|[|j]]]; [reflexivity ..|lia].
  - lia.
Defined.

(** ** Delimiter validation *)

Section DelimiterFacts.
Import Models Http.
Variable E : env.
Variable self : AsyncIndex.

Local Abbreviation delimiter_message :=
  "csv_delimiter must be a single ascii character"%string.

Lemma bad_delimiter_true (d : pystr) :
  d <> [] -> length d <> 1%nat \/ Documents.isascii d = false ->
  Documents.bad_delimiter (Some d) = true.
Proof.
  intros Hd Hbad. unfold Documents.bad_delimiter. simpl.
  destruct d as [|c d]; [done|]. cbn [Documents.given andb].
  destruct Hbad as [Hlen|Hascii].
  - destruct (Nat.eqb_spec (length (c :: d)) 1); [done|]. done.
  - rewrite Hascii. simpl. apply orb_true_r.
Qed.

Lemma given_nonempty (d : pystr) : d <> [] -> Documents.given (Some d) = true.
Proof. by destruct d. Qed.

(** C8 (as amended). A non-empty [csv_delimiter] whose length is not 1 or
    which is not ASCII, given for a .csv file, makes the loaders raise
    [ValueError]; the calls built on them, and the raw upload of an existing
    file, raise it with no request sent. A non-empty [csv_delimiter] given
    to the raw upload of an existing file that is not a .csv file raises
    [ValueError] too, again with no request sent. *)
Theorem csv_delimiter_validated (p : Path) (primary_key : option string) (batch_size : Z)
    (d : pystr) (w : world) :
  d <> [] ->
  (suffix p = ".csv"%string ->
   length d <> 1%nat \/ Documents.isascii d = false ->
   Documents._load_documents_from_file E p (Some d) = Err (ValueError delimiter_message)
   /\ Documents._async_load_documents_from_file E p (Some d)
      = Err (ValueError delimiter_message)
   /\ Documents.add_documents_from_file_in_batches E self p batch_size primary_key (Some d) w
      = (Err (ValueError delimiter_message), w)
   /\ (path_exists E p = true ->
       Documents.add_documents_from_raw_file E self p primary_key (Some d) w
       = (Err (ValueError delimiter_message), w)))
  /\ (suffix p <> ".csv"%string ->
      path_exists E p = true ->
      exists msg,
        Documents.add_documents_from_raw_file E self p primary_key (Some d) w
        = (Err (ValueError msg), w)).
Proof.
  intros Hd. split.
  - intros Hcsv Hbad.
    pose proof (bad_delimiter_true d Hd Hbad) as Hcheck.
    assert (Documents._load_documents_from_file E p (Some d)
            = Err (ValueError delimiter_message)) as Hload.
    { unfold Documents._load_documents_from_file, Documents._validate_file_type.
      rewrite Hcsv. simpl. by rewrite Hcheck. }
    split; [done|]. split; [done|]. split.
    + unfold Documents.add_documents_from_file_in_batches,
        Documents._async_load_documents_from_file.
      rewrite Hload. done.
    + intros Hexists. unfold Documents.add_documents_from_raw_file.
      rewrite Hexists, Hcsv. simpl. by rewrite andb_false_r, Hcheck.
  - intros Hother Hexists. unfold Documents.add_documents_from_raw_file.
    rewrite Hexists. cbn [negb].
    destruct (existsb (String.eqb (suffix p)) [".csv"; ".ndjson"]%string); cbn [negb].
    + rewrite (given_nonempty d Hd).
      destruct (String.eqb_spec (suffix p) ".csv") as [?|_]; [done|].
      eexists. reflexivity.
    + eexists. reflexivity.
Qed.

End DelimiterFacts.

(** A two-character delimiter and a single non-ASCII one for a csv file;
    a semicolon for an ndjson file sent raw. *)
Lemma csv_delimiter_validated_witness :
  Documents._load_documents_from_file (Scenario.world_of false false)
    (Scenario.file "films.csv" ".csv") (Some [59; 59]%N)
  = Err (ValueError "csv_delimiter must be a single ascii character")
  /\ Documents.add_documents_from_raw_file (Scenario.world_of false false) Scenario.movies
       (Scenario.file "films.csv" ".csv") None (Some [233]%N) Http.fresh
     = (Err (ValueError "csv_delimiter must be a single ascii character"), Http.fresh)
  /\ exists msg,
      Documents.add_documents_from_raw_file (Scenario.world_of false false) Scenario.movies
        (Scenario.file "films.ndjson" ".ndjson") None (Some [59]%N) Http.fresh
      = (Err (ValueError msg), Http.fresh).
Proof.
  split; [|split].
  - apply (csv_delimiter_validated (Scenario.world_of false false) Scenario.movies
             (Scenario.file "films.csv" ".csv") None 1000 [59; 59]%N Http.fresh).
    + discriminate.
    + reflexivity.
    + left. simpl. lia.
  - apply (csv_delimiter_validated (Scenario.world_of false false) Scenario.movies
             (Scenario.file "films.csv" ".csv") None 1000 [233]%N Http.fresh).
    + discriminate.
    + reflexivity.
    + right. reflexivity.
    + reflexivity.
  - apply (csv_delimiter_validated (Scenario.world_of false false) Scenario.movies
             (Scenario.file "films.ndjson" ".ndjson") None 1000 [59]%N Http.fresh).
    + discriminate.
    + discriminate.
    + reflexivity.
Defined.

(** C8 as stated fails: a delimiter given for a json file is not refused
    by the loader, which returns the documents of the file; and an empty
    delimiter, whose length is not 1, is not refused for a csv file. *)
Lemma csv_delimiter_counterexample :
  Documents._load_documents_from_file (Scenario.world_of false false)
    (Scenario.file "a.json" ".json") (Some [59]%N)
  = Ok [JStr "a.json"]
  /\ Documents._load_documents_from_file (Scenario.world_of false false)
       (Scenario.file "films.csv" ".csv") (Some [])
     = Ok [JStr "films.csv"].
Proof. split; reflexivity. Qed.

(** ** Directory ingestion *)

Section DirectoryFacts.
Import Models Http.
Variable E : env.
Variable self : AsyncIndex.

(** [add_documents] sends its request and nothing else, whatever comes
    back. *)
Lemma add_documents_world documents primary_key w :
  (Documents.add_documents E self documents primary_key w).2 =
    {| rounds := rounds w ++ [[Documents.post_documents self documents primary_key]];
       clock := clock w
                + latency E (history w) (Documents.post_documents self documents primary_key) |}.
Proof.
  unfold Documents.add_documents, HttpRequests_post, HttpRequests_send, send, mbind, M_bind.
  simpl. fold (Documents.post_documents self documents primary_key).
  destruct (respond E (history w) _) as [resp|]; [|done].
  destruct ((200 <=? status_code resp) && (status_code resp <? 300)); [|done].
  simpl. unfold lift. destruct (json_body resp); done.
Qed.

Lemma has_primary_key_post documents primary_key :
  Documents.has_primary_key (Documents.post_documents self documents primary_key)
  = Py.truthy_str primary_key.
Proof.
  unfold Documents.has_primary_key, Documents.post_documents. simpl.
  by destruct (Py.truthy_str primary_key).
Qed.

Lemma run_all_add_documents primary_key (loaded : list (list json)) w :
  rounds (run_all (map (fun d => Documents.add_documents E self d primary_key) loaded) w).2
  = rounds w ++ map (fun d => [Documents.post_documents self d primary_key]) loaded.
Proof.
  revert w. induction loaded as [|d loaded IH]; intros w; simpl.
  - by rewrite app_nil_r.
  - pose proof (add_documents_world d primary_key w) as Hw.
    destruct (Documents.add_documents E self d primary_key w) as [r w1]. simpl in Hw.
    specialize (IH w1).
    destruct (run_all _ w1) as [rs w2]. simpl in *.
    rewrite IH, Hw. simpl. rewrite <- app_assoc. reflexivity.
Qed.

(** A gather of uploads adds one round, made of their requests in
    order. *)
Lemma gather_add_documents primary_key (loaded : list (list json)) w :
  rounds (gather (map (fun d => Documents.add_documents E self d primary_key) loaded) w).2
  = rounds w
    ++ match loaded with
       | [] => []
       | _ => [map (fun d => Documents.post_documents self d primary_key) loaded]
       end.
Proof.
  assert (concat (map (fun d => [Documents.post_documents self d primary_key]) loaded)
          = map (fun d => Documents.post_documents self d primary_key) loaded) as Hflat.
  { induction loaded as [|d l IHl]; simpl; [done|]. by rewrite IHl. }
  unfold gather.
  pose proof (run_all_add_documents primary_key loaded w) as Hrun.
  destruct (run_all _ w) as [rs w']. simpl in *.
  rewrite Hrun, drop_app_length, Hflat.
  by destruct loaded.
Qed.

(** Past position 0 of the listing the loop only collects tasks. *)
Lemma task_group_loop_tail primary_key document_type csv_delimiter :
  forall (rest : list Path) (a : nat) tasks results w loaded,
    Documents.load_matching E rest document_type csv_delimiter = Ok loaded ->
    Documents.task_group_loop E self primary_key document_type csv_delimiter
      (zip (seq (S a) (length rest)) rest) tasks results w
    = (Ok (tasks ++ map (fun d => Documents.add_documents E self d primary_key) loaded,
           results), w).
Proof.
  induction rest as [|p rest IH]; intros a tasks results w loaded Hload.
  - simpl in *. injection Hload as <-. simpl. by rewrite app_nil_r.
  - simpl in *.
    destruct (String.eqb (suffix p) ("." +:+ document_type)).
    + unfold mbind, result_bind in Hload.
      destruct (Documents._async_load_documents_from_file E p csv_delimiter) as [d|e];
        [|done].
      destruct (Documents.load_matching E rest document_type csv_delimiter) as [ds|e];
        [|done].
      injection Hload as <-.
      unfold mbind at 1, M_bind at 1, lift at 1.
      rewrite (IH (S a) _ results w ds eq_refl).
      simpl. by rewrite <- app_assoc.
    + by apply IH.
Qed.

(** The entry at position 0, when it is of the requested type, is
    uploaded and awaited before the loop goes on. *)
Lemma task_group_loop_first primary_key document_type csv_delimiter
    (p0 : Path) (rest : list Path) (d0 : list json) (ds : list (list json)) w :
  suffix p0 = "." +:+ document_type ->
  Documents._async_load_documents_from_file E p0 csv_delimiter = Ok d0 ->
  Documents.load_matching E rest document_type csv_delimiter = Ok ds ->
  Documents.task_group_loop E self primary_key document_type csv_delimiter
    ((0%nat, p0) :: zip (seq 1 (length rest)) rest) [] [] w
  = match Documents.add_documents E self d0 None w with
    | (Ok r, w1) =>
        (Ok (map (fun d => Documents.add_documents E self d primary_key) ds, [r]), w1)
    | (Err e, w1) => (Err e, w1)
    end.
Proof.
  intros Hsfx Hload0 Hrest. cbn [Documents.task_group_loop].
  rewrite Hsfx, String.eqb_refl, Hload0. cbn [Nat.eqb].
  unfold mbind, M_bind, lift.
  destruct (Documents.add_documents E self d0 None w) as [[r|e] w1]; [|done].
  by rewrite (task_group_loop_tail primary_key document_type csv_delimiter rest 0%nat
                [] [r] w1 ds Hrest).
Qed.

Lemma later_requests_keyed primary_key (ds : list (list json)) :
  Py.truthy_str primary_key = true ->
  Forall (Forall (fun r => Documents.has_primary_key r = true))
    match ds with
    | [] => []
    | _ => [map (fun d => Documents.post_documents self d primary_key) ds]
    end.
Proof.
  intros Hpk. destruct ds as [|d ds]; [constructor|].
  constructor; [|constructor].
  apply Forall_forall. intros x Hx.
  apply list_elem_of_In, in_map_iff in Hx as (y & <- & _).
  by rewrite has_primary_key_post.
Qed.

(** X18. In the gather branch a directory with more than one file of the
    requested type has the upload of its last file sent alone; the uploads
    of the files before it follow in one round. *)
Lemma gather_branch_last_alone (directory : Path) (primary_key : option string)
    (document_type : string) (csv_delimiter : option pystr)
    (ds : list (list json)) (dl : list json) (w : world) :
  use_task_groups E = false ->
  Documents.load_matching E (iterdir E directory) document_type csv_delimiter
    = Ok (ds ++ [dl]) ->
  ds <> [] ->
  exists later,
    rounds (Documents.add_documents_from_directory E self directory primary_key
              document_type csv_delimiter false w).2
    = rounds w ++ [Documents.post_documents self dl primary_key] :: later
    /\ (is_ok (Documents.add_documents E self dl primary_key w).1 = true ->
        later = [map (fun d => Documents.post_documents self d primary_key) ds]).
Proof.
  intros Htg Hload Hds.
  unfold Documents.add_documents_from_directory. rewrite Htg, Hload. cbn [negb].
  unfold mbind at 1, M_bind at 1, lift at 1.
  unfold mbind at 1, M_bind at 1, lift at 1.
  assert (Documents._raise_on_no_documents
            (map (fun documents => Documents.add_documents E self documents primary_key)
                 (ds ++ [dl])) document_type directory = Ok tt) as ->.
  { rewrite map_app. simpl. by destruct (map _ ds). }
  unfold Documents.first_alone_then_gather, Documents.pop.
  rewrite map_app. cbn [map].
  rewrite last_snoc, removelast_last, length_app, length_map. cbn [length].
  destruct (Nat.ltb_spec 1 (length ds + 1)) as [_|Hshort].
  2: { destruct ds; [done|]. simpl in Hshort. lia. }
  unfold mbind at 1, M_bind at 1.
  pose proof (add_documents_world dl primary_key w) as Hfirst.
  destruct (Documents.add_documents E self dl primary_key w) as [[r|e] w1]; simpl in Hfirst.
  - unfold mbind at 1, M_bind at 1.
    pose proof (gather_add_documents primary_key ds w1) as Hgather.
    destruct (gather _ w1) as [[results|e] w2]; simpl in Hgather.
    + eexists. split; [|intros _; reflexivity].
      simpl. rewrite Hgather, Hfirst. simpl. rewrite <- app_assoc.
      by destruct ds.
    + eexists. split; [|intros _; reflexivity].
      simpl. rewrite Hgather, Hfirst. simpl. rewrite <- app_assoc.
      by destruct ds.
  - exists []. split; [|done]. simpl. by rewrite Hfirst.
Qed.


End DirectoryFacts.



(** C6, the code at the failing inputs. With three json files a, b and c
    in the listing, in this order, the gather branch of
    [add_documents_from_directory] and the in-batches function send the
    upload of c, the last file, alone and then those of a and b together;
    with a text file ahead of a and b in the listing, the task-group branch
    sends no upload alone. *)
Theorem directory_first_file_not_sent_alone :
  Http.rounds (Documents.add_documents_from_directory (Scenario.world_of false false)
                 Scenario.movies (Scenario.file "movies" "") None "json" None
                 false Http.fresh).2
  = [[Scenario.upload "c.json" None];
     [Scenario.upload "a.json" None; Scenario.upload "b.json" None]]
  /\ Http.rounds (Documents.add_documents_from_directory_in_batches
                    (Scenario.world_of false false) Scenario.movies
                    (Scenario.file "movies" "") 1000 None "json" None false Http.fresh).2
     = [[Scenario.upload "c.json" None];
        [Scenario.upload "a.json" None; Scenario.upload "b.json" None]]
  /\ Http.rounds (Documents.add_documents_from_directory (Scenario.world_of false true)
                    Scenario.movies (Scenario.file "mixed" "") None "json" None
                    false Http.fresh).2
     = [[Scenario.upload "a.json" None; Scenario.upload "b.json" None]].
Proof. repeat split; reflexivity. Qed.

Example directory_combined_is_one_upload :
  Http.rounds (Documents.add_documents_from_directory (Scenario.world_of false false)
                 Scenario.movies (Scenario.file "movies" "") None "json" None
                 true Http.fresh).2
  = [[Documents.post_documents Scenario.movies
        [JStr "a.json"; JStr "b.json"; JStr "c.json"] None]].
Proof. reflexivity. Qed.

(** * Further properties *)

(** ** Batches *)

Section MoreBatchFacts.
Import Models Http.
Context {doc : Type}.

(** X1. For a batch size B >= 1 no chunk of [_batch] is empty, and every
    chunk but the last holds exactly B documents. *)
Theorem batch_chunk_sizes (l : list doc) (batch_size : Z) (chunks : list (list doc))
    (i : nat) (c : list doc) :
  1 <= batch_size ->
  Batch._batch l batch_size = Ok chunks ->
  chunks !! i = Some c ->
  (1 <= length c)%nat
  /\ ((S i < length chunks)%nat -> Z.of_nat (length c) = batch_size).
Proof.
  intros Hb Hbatch Hc.
  rewrite (batch_chunks l batch_size Hb) in Hbatch. injection Hbatch as <-.
  set (n := Z.of_nat (length l)) in *.
  set (m := Z.to_nat (Batch.ceil_div n batch_size)) in *.
  rewrite list_lookup_fmap in Hc.
  destruct (seq 0 m !! i) as [k|] eqn:Hk; [|done].
  apply lookup_seq in Hk as [-> Him]. injection Hc as <-.
  rewrite length_map, length_seq.
  unfold Batch.chunk. rewrite length_take, length_drop.
  assert (0 <= Batch.ceil_div n batch_size) as Hnn.
  { unfold Batch.ceil_div. apply Z.div_pos; lia. }
  destruct (ceil_div_tight n batch_size ltac:(lia) Hb) as [Ht|Hz]; [|lia].
  assert (Z.of_nat (0 + i) * batch_size <= (Batch.ceil_div n batch_size - 1) * batch_size)
    as Hmul by nia.
  split.
  - unfold n in *. nia.
  - intros Hnext.
    assert ((Z.of_nat (0 + i) + 1) * batch_size
            <= (Batch.ceil_div n batch_size - 1) * batch_size) as Hmul' by nia.
    unfold n in *. nia.
Qed.

End MoreBatchFacts.

(** Seven documents in batches of three: the second chunk is full. *)
Lemma batch_chunk_sizes_witness :
  (1 <= length [4; 5; 6])%nat
  /\ ((2 < length [[1; 2; 3]; [4; 5; 6]; [7]])%nat -> Z.of_nat (length [4; 5; 6]) = 3).
Proof.
  apply (batch_chunk_sizes [1; 2; 3; 4; 5; 6; 7] 3 [[1; 2; 3]; [4; 5; 6]; [7]] 1 [4; 5; 6]).
  - lia.
  - reflexivity.
  - reflexivity.
Defined.

Section BatchUploadFacts.
Import Models Http.
Variable E : env.
Variable self : AsyncIndex.

Lemma world_same w : {| rounds := rounds w ++ []; clock := clock w |} = w.
Proof. destruct w. simpl. by rewrite app_nil_r. Qed.


(** X3. For a batch size B >= 1 [add_documents_in_batches] sends the
    chunks of [_batch] in one round, one upload per chunk and in order, all
    with the same primary key; the chunks put together are the documents; and
    for an empty list of documents nothing is sent. *)
Theorem add_documents_in_batches_round (documents : list json) (batch_size : Z)
    (primary_key : option string) (w : world) :
  1 <= batch_size ->
  exists chunks,
    Batch._batch documents batch_size = Ok chunks
    /\ concat chunks = documents
    /\ (chunks = [] <-> documents = [])
    /\ rounds (Documents.add_documents_in_batches E self documents batch_size primary_key w).2
       = rounds w
         ++ match chunks with
            | [] => []
            | _ => [map (fun c => Documents.post_documents self c primary_key) chunks]
            end.
Proof.
  intros Hb. eexists. split; [by apply batch_chunks|].
  set (n := Z.of_nat (length documents)).
  set (m := Z.to_nat (Batch.ceil_div n batch_size)).
  assert (concat (map (Batch.chunk (Z.to_nat batch_size) documents) (seq 0 m)) = documents)
    as Hcat.
  { rewrite chunks_concat. apply take_ge.
    pose proof (ceil_div_covers n batch_size ltac:(lia) Hb).
    assert (0 <= Batch.ceil_div n batch_size) by (apply Z.div_pos; lia).
    unfold m, n in *. nia. }
  split; [done|]. split.
  - split.
    + intros Hnil. rewrite <- Hcat, Hnil. done.
    + intros ->. unfold m, n. simpl. unfold Batch.ceil_div.
      rewrite Z.div_small by lia. done.
  - unfold Documents.add_documents_in_batches.
    rewrite (batch_chunks documents batch_size Hb).
    unfold mbind, M_bind, lift.
    apply (gather_add_documents E self primary_key).
Qed.

End BatchUploadFacts.


Lemma add_documents_in_batches_round_witness :
  exists chunks,
    Batch._batch [JStr "a"; JStr "b"; JStr "c"] 2 = Ok chunks
    /\ concat chunks = [JStr "a"; JStr "b"; JStr "c"]
    /\ (chunks = [] <-> [JStr "a"; JStr "b"; JStr "c"] = [])
    /\ Http.rounds (Documents.add_documents_in_batches (Scenario.world_of false false)
                      Scenario.movies [JStr "a"; JStr "b"; JStr "c"] 2 None Http.fresh).2
       = Http.rounds Http.fresh
         ++ match chunks with
            | [] => []
            | _ => [map (fun c => Documents.post_documents Scenario.movies c None) chunks]
            end.
Proof.
  apply (add_documents_in_batches_round (Scenario.world_of false false) Scenario.movies
           [JStr "a"; JStr "b"; JStr "c"] 2 None Http.fresh). lia.
Defined.

Example add_documents_in_batches_three_by_two :
  Http.rounds (Documents.add_documents_in_batches (Scenario.world_of false false)
                 Scenario.movies [JStr "a"; JStr "b"; JStr "c"] 2 None Http.fresh).2
  = [[Documents.post_documents Scenario.movies [JStr "a"; JStr "b"] None;
      Documents.post_documents Scenario.movies [JStr "c"] None]].
Proof. reflexivity. Qed.

(** ** Tenant tokens, further *)

Section MoreTokenFacts.
Context {token : Type}.
Variable jwt_encode : gmap string json -> string -> token.
Variable jwt_decode : token -> string -> option (gmap string json).
Variable int_timestamp : Token.datetime -> Z.
Hypothesis decode_encode : forall p k, jwt_decode (jwt_encode p k) k = Some p.

Lemma check_indexes_wildcard api_key (requested : list json) :
  Token.indexes api_key = ["*"%string] ->
  Token.check_indexes api_key requested = Ok tt.
Proof.
  intros Hwild. induction requested as [|index rest IH]; simpl; [done|].
  by rewrite (bool_decide_eq_true_2 _ Hwild).
Qed.

(** X4. A key whose indexes are the wildcard signs any list of requested
    indexes, and search rules given as a list are never checked against the
    key: in both cases the call returns a token when [expires_at] is [None]
    or in the future, and never raises [InvalidRestriction]. *)
Theorem tenant_token_unrestricted now search_rules api_key expires_at :
  (exists o requested,
      search_rules = JObj o
      /\ o !! "indexes"%string = Some (JList requested)
      /\ Token.indexes api_key = ["*"%string])
  \/ (exists l, search_rules = JList l) ->
  (forall msg,
      Token.generate_tenant_token jwt_encode int_timestamp now search_rules api_key expires_at
      <> Err (InvalidRestriction msg))
  /\ ((forall e, expires_at = Some e -> now < e) ->
      exists tok,
        Token.generate_tenant_token jwt_encode int_timestamp now search_rules api_key expires_at
        = Ok tok).
Proof.
  intros Hcase.
  assert (Token.check_restriction search_rules api_key = Ok tt) as Hcheck.
  { destruct Hcase as [(o & requested & -> & Ho & Hwild)|[l ->]]; [|done].
    unfold Token.check_restriction. rewrite Ho. simpl.
    destruct requested as [|index rest]; [done|].
    apply check_indexes_wildcard, Hwild. }
  split.
  - intros msg. unfold Token.generate_tenant_token. rewrite Hcheck. simpl.
    destruct expires_at as [e|]; [|done]. by destruct (e <=? now).
  - intros Hfuture. unfold Token.generate_tenant_token. rewrite Hcheck. simpl.
    destruct expires_at as [e|]; [|by eexists].
    specialize (Hfuture e eq_refl).
    destruct (Z.leb_spec e now) as [?|_]; [lia|]. by eexists.
Qed.

(** X5. The claim set of a token holds searchRules and apiKeyUid and, when
    [expires_at] is given, exp: nothing else is put in, and without
    [expires_at] there is no exp claim. *)
Theorem tenant_token_claims now search_rules api_key expires_at tok :
  Token.generate_tenant_token jwt_encode int_timestamp now search_rules api_key expires_at
    = Ok tok ->
  exists payload,
    jwt_decode tok (Token.key api_key) = Some payload
    /\ dom payload
       = match expires_at with
         | Some _ => {[ "searchRules"%string; "apiKeyUid"%string; "exp"%string ]}
         | None => ({[ "searchRules"%string; "apiKeyUid"%string ]} : gset string)
         end
    /\ (expires_at = None -> payload !! "exp"%string = None).
Proof.
  unfold Token.generate_tenant_token.
  destruct (Token.check_restriction search_rules api_key) as [[]|e]; [|done]. simpl.
  destruct expires_at as [e|].
  - destruct (e <=? now); [done|]. intros [= <-].
    eexists. split; [apply decode_encode|]. split; [|done].
    rewrite !dom_insert_L, dom_singleton_L. set_solver.
  - intros [= <-].
    eexists. split; [apply decode_encode|]. split; [|by intros _; simplify_map_eq].
    rewrite !dom_insert_L, dom_singleton_L. set_solver.
Qed.

End MoreTokenFacts.

Lemma tenant_token_unrestricted_witness :
  (forall msg,
      Token.generate_tenant_token Token.plain_encode Token.whole_seconds Scenario.today
        (JObj (Scenario.rules ["c"%string])) Cases.key_star None
      <> Err (InvalidRestriction msg))
  /\ ((forall e : Token.datetime, None = Some e -> Scenario.today < e) ->
      exists tok,
        Token.generate_tenant_token Token.plain_encode Token.whole_seconds Scenario.today
          (JObj (Scenario.rules ["c"%string])) Cases.key_star None = Ok tok).
Proof.
  apply (tenant_token_unrestricted Token.plain_encode Token.whole_seconds Scenario.today
           (JObj (Scenario.rules ["c"%string])) Cases.key_star None).
  left. exists (Scenario.rules ["c"%string]), [JStr "c"].
  split; [reflexivity|]. split; reflexivity.
Defined.

Lemma tenant_token_claims_witness :
  exists payload,
    Token.plain_decode
      (Token.plain_encode
         (<[ "apiKeyUid"%string := JStr "key-uid" ]>
            {[ "searchRules"%string := JObj (Scenario.rules ["a"%string]) ]}) "secret")
      (Token.key Scenario.key_ab) = Some payload
    /\ dom payload = ({[ "searchRules"%string; "apiKeyUid"%string ]} : gset string)
    /\ ((None : option Token.datetime) = None -> payload !! "exp"%string = None).
Proof.
  apply (tenant_token_claims Token.plain_encode Token.plain_decode Token.whole_seconds
           plain_decode_encode Scenario.today (JObj (Scenario.rules ["a"%string]))
           Scenario.key_ab None).
  reflexivity.
Defined.

(** ** Directories, further *)

Section MoreDirectoryFacts.
Import Models Http.
Variable E : env.
Variable self : AsyncIndex.
Variable primary_key : option string.
Variable document_type : string.
Variable csv_delimiter : option pystr.

Local Abbreviation other_type :=
  (fun p : Path => suffix p <> "." +:+ document_type).

Lemma eqb_other (p : Path) :
  other_type p -> String.eqb (suffix p) ("." +:+ document_type) = false.
Proof. intros Hne. by destruct (String.eqb_spec (suffix p) ("." +:+ document_type)). Qed.

Lemma load_matching_none (paths : list Path) :
  Forall other_type paths ->
  Documents.load_matching E paths document_type csv_delimiter = Ok [].
Proof.
  induction 1 as [|p paths Hp _ IH]; simpl; [done|]. by rewrite (eqb_other p Hp).
Qed.

Lemma task_group_loop_none (paths : list Path) :
  Forall other_type paths ->
  forall a tasks results w,
    Documents.task_group_loop E self primary_key document_type csv_delimiter
      (zip (seq a (length paths)) paths) tasks results w
    = (Ok (tasks, results), w).
Proof.
  induction 1 as [|p paths Hp _ IH]; intros a tasks results w; simpl; [done|].
  rewrite (eqb_other p Hp). apply IH.
Qed.

Lemma update_task_group_loop_none (paths : list Path) :
  Forall other_type paths ->
  forall a tasks results w,
    Uploads.update_task_group_loop E self primary_key document_type csv_delimiter
      (zip (seq a (length paths)) paths) tasks results w
    = (Ok (tasks, results), w).
Proof.
  induction 1 as [|p paths Hp _ IH]; intros a tasks results w; simpl; [done|].
  rewrite (eqb_other p Hp). apply IH.
Qed.

Lemma upload_each_none (paths : list Path) w :
  Forall other_type paths ->
  Uploads.upload_each E self primary_key document_type csv_delimiter paths w = (Ok [], w).
Proof.
  induction 1 as [|p paths Hp _ IH]; simpl; [done|]. by rewrite (eqb_other p Hp).
Qed.

Lemma gather_nothing {A} (w : world) : gather ([] : list (M A)) w = (Ok [], w).
Proof. unfold gather. simpl. rewrite drop_all. simpl. by rewrite world_same. Qed.

(** X6. A directory that holds no file of the requested type makes every
    directory function raise [MeilisearchError] with the message that names
    the type and the directory, and nothing is sent: with or without
    combining, with or without task groups, adding or updating, blocking or
    not. *)
Theorem directory_without_files (directory : Path) (batch_size : Z)
    (combine_documents : bool) (w : world) :
  Forall other_type (iterdir E directory) ->
  let nothing : result (list TaskInfo) * world :=
    (Err (MeilisearchError
            ("No " +:+ document_type +:+ " files found in " +:+ path_str directory)), w) in
  Documents.add_documents_from_directory E self directory primary_key document_type
    csv_delimiter combine_documents w = nothing
  /\ Documents.add_documents_from_directory_in_batches E self directory batch_size
       primary_key document_type csv_delimiter combine_documents w = nothing
  /\ Uploads.update_documents_from_directory E self directory primary_key document_type
       csv_delimiter combine_documents w = nothing
  /\ Uploads.Index_add_documents_from_directory E self directory primary_key document_type
       csv_delimiter combine_documents w = nothing.
Proof.
  intros Hnone nothing. unfold nothing.
  pose proof (load_matching_none _ Hnone) as Hload.
  split; [|split; [|split]].
  - unfold Documents.add_documents_from_directory. rewrite Hload.
    destruct combine_documents; [done|].
    destruct (use_task_groups E); cbn [negb]; [|done].
    unfold Documents.enumerate. unfold mbind at 1, M_bind at 1.
    rewrite (task_group_loop_none _ Hnone).
    unfold mbind at 1, M_bind at 1. by rewrite gather_nothing.
  - unfold Documents.add_documents_from_directory_in_batches. rewrite Hload.
    by destruct combine_documents.
  - unfold Uploads.update_documents_from_directory. rewrite Hload.
    destruct combine_documents; [done|].
    destruct (use_task_groups E); cbn [negb]; [|done].
    unfold Documents.enumerate. unfold mbind at 1, M_bind at 1.
    rewrite (update_task_group_loop_none _ Hnone).
    unfold mbind at 1, M_bind at 1. by rewrite gather_nothing.
  - unfold Uploads.Index_add_documents_from_directory. rewrite Hload.
    destruct combine_documents; [done|].
    unfold mbind at 1, M_bind at 1. by rewrite (upload_each_none _ w Hnone).
Qed.

(** X8. In the non-blocking directory functions a file that fails to load
    keeps every upload from being sent, as long as the files are combined or
    no task group is used: the exception of the loader comes out and the
    state is untouched. *)
Theorem directory_load_failure_sends_nothing (directory : Path) (batch_size : Z)
    (combine_documents : bool) (e : exn) (w : world) :
  Documents.load_matching E (iterdir E directory) document_type csv_delimiter = Err e ->
  (combine_documents = true \/ use_task_groups E = false ->
   Documents.add_documents_from_directory E self directory primary_key document_type
     csv_delimiter combine_documents w = (Err e, w))
  /\ Documents.add_documents_from_directory_in_batches E self directory batch_size
       primary_key document_type csv_delimiter combine_documents w = (Err e, w).
Proof.
  intros Hload. split.
  - intros [->| Htg].
    + unfold Documents.add_documents_from_directory. by rewrite Hload.
    + unfold Documents.add_documents_from_directory. rewrite Hload, Htg.
      by destruct combine_documents.
  - unfold Documents.add_documents_from_directory_in_batches. rewrite Hload.
    by destruct combine_documents.
Qed.

End MoreDirectoryFacts.

Section UnsupportedTypeFacts.
Import Models Http.
Variable E : env.
Variable self : AsyncIndex.
Variable primary_key : option string.
Variable document_type : string.
Variable csv_delimiter : option pystr.
Hypothesis unsupported : Uploads.supported document_type = false.

Local Abbreviation file_message := "File must be a json, ndjson, or csv file"%string.

Lemma load_unsupported (p : Path) :
  suffix p = "." +:+ document_type ->
  Documents._load_documents_from_file E p csv_delimiter = Err (MeilisearchError file_message).
Proof.
  intros Hsfx. unfold Documents._load_documents_from_file, Documents._validate_file_type.
  rewrite Hsfx. unfold Uploads.supported in unsupported. by rewrite unsupported.
Qed.

Lemma load_matching_unsupported (paths : list Path) :
  Documents.load_matching E paths document_type csv_delimiter = Ok []
  \/ Documents.load_matching E paths document_type csv_delimiter
     = Err (MeilisearchError file_message).
Proof.
  induction paths as [|p paths IH]; simpl; [by left|].
  destruct (String.eqb_spec (suffix p) ("." +:+ document_type)) as [Hsfx|_]; [|done].
  right. unfold Documents._async_load_documents_from_file.
  by rewrite (load_unsupported p Hsfx).
Qed.

Lemma task_group_loop_unsupported (entries : list (nat * Path)) tasks results w :
  Documents.task_group_loop E self primary_key document_type csv_delimiter
    entries tasks results w = (Ok (tasks, results), w)
  \/ Documents.task_group_loop E self primary_key document_type csv_delimiter
       entries tasks results w = (Err (MeilisearchError file_message), w).
Proof.
  induction entries as [|[i p] entries IH]; simpl; [by left|].
  destruct (String.eqb_spec (suffix p) ("." +:+ document_type)) as [Hsfx|_]; [|done].
  right. unfold Documents._async_load_documents_from_file.
  by rewrite (load_unsupported p Hsfx).
Qed.

Lemma update_task_group_loop_unsupported (entries : list (nat * Path)) tasks results w :
  Uploads.update_task_group_loop E self primary_key document_type csv_delimiter
    entries tasks results w = (Ok (tasks, results), w)
  \/ Uploads.update_task_group_loop E self primary_key document_type csv_delimiter
       entries tasks results w = (Err (MeilisearchError file_message), w).
Proof.
  induction entries as [|[i p] entries IH]; simpl; [by left|].
  destruct (String.eqb_spec (suffix p) ("." +:+ document_type)) as [Hsfx|_]; [|done].
  right. unfold Documents._async_load_documents_from_file.
  by rewrite (load_unsupported p Hsfx).
Qed.

Lemma upload_each_unsupported (paths : list Path) w :
  Uploads.upload_each E self primary_key document_type csv_delimiter paths w = (Ok [], w)
  \/ Uploads.upload_each E self primary_key document_type csv_delimiter paths w
     = (Err (MeilisearchError file_message), w).
Proof.
  induction paths as [|p paths IH]; simpl; [by left|].
  destruct (String.eqb_spec (suffix p) ("." +:+ document_type)) as [Hsfx|_]; [|done].
  right. by rewrite (load_unsupported p Hsfx).
Qed.


End UnsupportedTypeFacts.

(** The directory movies holds json files only: asking for csv files finds
    none. *)
Lemma directory_without_files_witness :
  let nothing : result (list Models.TaskInfo) * Http.world :=
    (Err (MeilisearchError ("No " +:+ "csv" +:+ " files found in " +:+ "movies")),
     Http.fresh) in
  Documents.add_documents_from_directory (Scenario.world_of false true) Scenario.movies
    (Scenario.file "movies" "") None "csv" None false Http.fresh = nothing
  /\ Documents.add_documents_from_directory_in_batches (Scenario.world_of false true)
       Scenario.movies (Scenario.file "movies" "") 1000 None "csv" None false Http.fresh
     = nothing
  /\ Uploads.update_documents_from_directory (Scenario.world_of false true) Scenario.movies
       (Scenario.file "movies" "") None "csv" None false Http.fresh = nothing
  /\ Uploads.Index_add_documents_from_directory (Scenario.world_of false true)
       Scenario.movies (Scenario.file "movies" "") None "csv" None false Http.fresh
     = nothing.
Proof.
  apply (directory_without_files (Scenario.world_of false true) Scenario.movies None "csv"
           None (Scenario.file "movies" "") 1000 false Http.fresh).
  repeat constructor; discriminate.
Defined.


(** The second file of movies does not decode: nothing is uploaded. *)
Lemma directory_load_failure_sends_nothing_witness :
  (false = true \/ Http.use_task_groups (Cases.broken false) = false ->
   Documents.add_documents_from_directory (Cases.broken false) Scenario.movies
     (Scenario.file "movies" "") None "json" None false Http.fresh
   = (Err (OtherError "JSONDecodeError"), Http.fresh))
  /\ Documents.add_documents_from_directory_in_batches (Cases.broken false) Scenario.movies
       (Scenario.file "movies" "") 1000 None "json" None false Http.fresh
     = (Err (OtherError "JSONDecodeError"), Http.fresh).
Proof.
  apply (directory_load_failure_sends_nothing (Cases.broken false) Scenario.movies None
           "json" None (Scenario.file "movies" "") 1000 false (OtherError "JSONDecodeError")
           Http.fresh).
  reflexivity.
Defined.

(** ** The blocking directory upload *)

Section BlockingDirectoryFacts.
Import Models Http.
Variable E : env.
Variable self : AsyncIndex.
Variable primary_key : option string.
Variable document_type : string.
Variable csv_delimiter : option pystr.

Local Abbreviation upload_each :=
  (Uploads.upload_each E self primary_key document_type csv_delimiter).
Local Abbreviation load_matching :=
  (fun paths => Documents.load_matching E paths document_type csv_delimiter).
Local Abbreviation alone :=
  (fun d : list json => [Documents.post_documents self d primary_key]).

(** When the loop ends well, every file was loaded, and what was sent is
    one round per file, in the order of the listing. *)
Lemma upload_each_rounds (paths : list Path) :
  forall w responses w',
    upload_each paths w = (Ok responses, w') ->
    exists loaded,
      load_matching paths = Ok loaded
      /\ rounds w' = rounds w ++ map alone loaded
      /\ length responses = length loaded.
Proof.
  induction paths as [|p paths IH]; intros w responses w' Hrun; simpl in *.
  - injection Hrun as <- <-. exists []. simpl. by rewrite app_nil_r.
  - destruct (String.eqb (suffix p) ("." +:+ document_type)); [|by apply IH].
    unfold mbind at 1, M_bind at 1, lift at 1 in Hrun.
    unfold Documents._async_load_documents_from_file.
    destruct (Documents._load_documents_from_file E p csv_delimiter) as [d|e]; [|done].
    unfold mbind at 1, M_bind at 1 in Hrun.
    pose proof (add_documents_world E self d primary_key w) as Hsent.
    destruct (Documents.add_documents E self d primary_key w) as [[r|e] w1]; [|done].
    simpl in Hsent.
    unfold mbind at 1, M_bind at 1 in Hrun.
    destruct (upload_each paths w1) as [[rs|e] w2] eqn:Hrest; [|done].
    injection Hrun as <- <-.
    destruct (IH w1 rs w2 Hrest) as (loaded & -> & Hrounds & Hlen).
    exists (d :: loaded). split; [done|]. split.
    + rewrite Hrounds, Hsent. simpl. rewrite <- app_assoc. reflexivity.
    + simpl. by rewrite Hlen.
Qed.

(** X9. [Index.add_documents_from_directory] without combining, when it
    returns: every file of the requested type was loaded and uploaded in a
    round of its own, in the order of the listing and with the primary key
    of the call, and one response per file comes back. *)
Theorem blocking_directory_uploads_in_order (directory : Path) (w : world)
    (responses : list TaskInfo) (w' : world) :
  Uploads.Index_add_documents_from_directory E self directory primary_key document_type
    csv_delimiter false w = (Ok responses, w') ->
  exists loaded,
    load_matching (iterdir E directory) = Ok loaded
    /\ loaded <> []
    /\ rounds w' = rounds w ++ map alone loaded
    /\ length responses = length loaded.
Proof.
  unfold Uploads.Index_add_documents_from_directory.
  unfold mbind at 1, M_bind at 1. intros Hrun.
  destruct (upload_each (iterdir E directory) w) as [[rs|e] w1] eqn:Hloop; [|done].
  destruct rs as [|r rs]; [done|]. simpl in Hrun. injection Hrun as <- <-.
  destruct (upload_each_rounds _ _ _ _ Hloop) as (loaded & Hload & Hrounds & Hlen).
  exists loaded. split; [done|]. split; [|done].
  intros ->. done.
Qed.

Lemma upload_each_extends (paths : list Path) :
  forall w, exists more,
    rounds (upload_each paths w).2 = rounds w ++ more.
Proof.
  induction paths as [|p paths IH]; intros w; simpl.
  - exists []. by rewrite app_nil_r.
  - destruct (String.eqb (suffix p) ("." +:+ document_type)); [|apply IH].
    unfold mbind at 1, M_bind at 1, lift at 1.
    destruct (Documents._load_documents_from_file E p csv_delimiter) as [d|e].
    2: { exists []. simpl. by rewrite app_nil_r. }
    unfold mbind at 1, M_bind at 1.
    pose proof (add_documents_world E self d primary_key w) as Hsent.
    destruct (Documents.add_documents E self d primary_key w) as [[r|e] w1];
      simpl in Hsent.
    + unfold mbind at 1, M_bind at 1.
      destruct (IH w1) as [more Hmore].
      destruct (upload_each paths w1) as [[rs|e] w2]; simpl in *.
      * exists (alone d :: more). rewrite Hmore, Hsent. simpl.
        rewrite <- app_assoc. reflexivity.
      * exists (alone d :: more). rewrite Hmore, Hsent. simpl.
        rewrite <- app_assoc. reflexivity.
    + exists [alone d]. simpl. by rewrite Hsent.
Qed.

Lemma upload_each_fails (paths : list Path) :
  forall w e,
    load_matching paths = Err e ->
    is_ok (upload_each paths w).1 = false.
Proof.
  induction paths as [|p paths IH]; intros w e Hload; simpl in *; [done|].
  destruct (String.eqb (suffix p) ("." +:+ document_type)); [|by eapply IH].
  unfold mbind at 1, M_bind at 1, lift at 1.
  unfold Documents._async_load_documents_from_file in Hload.
  destruct (Documents._load_documents_from_file E p csv_delimiter) as [d|e']; [|done].
  unfold mbind at 1, M_bind at 1.
  destruct (Documents.add_documents E self d primary_key w) as [[r|e'] w1]; [|done].
  unfold mbind at 1, M_bind at 1.
  unfold mbind, result_bind in Hload.
  destruct (Documents.load_matching E paths document_type csv_delimiter) as [ds|e'] eqn:Hrest;
    [done|].
  specialize (IH w1 e' eq_refl).
  by destruct (upload_each paths w1) as [[rs|e''] w2].
Qed.

(** X10. The blocking upload is not all or nothing: when the first entry
    of the listing loads and its upload succeeds, and a later file fails to
    load, the call raises, and the upload of the first file has been sent all
    the same. *)
Theorem blocking_directory_partial_upload (directory p0 : Path) (rest : list Path)
    (d0 : list json) (e : exn) (w : world) :
  iterdir E directory = p0 :: rest ->
  suffix p0 = "." +:+ document_type ->
  Documents._load_documents_from_file E p0 csv_delimiter = Ok d0 ->
  is_ok (Documents.add_documents E self d0 primary_key w).1 = true ->
  load_matching rest = Err e ->
  is_ok (Uploads.Index_add_documents_from_directory E self directory primary_key
           document_type csv_delimiter false w).1 = false
  /\ exists more,
      rounds (Uploads.Index_add_documents_from_directory E self directory primary_key
                document_type csv_delimiter false w).2
      = rounds w ++ alone d0 :: more.
Proof.
  intros Hdir Hsfx Hload0 Hsent Hrest.
  assert (exists e' w2 more,
             Uploads.Index_add_documents_from_directory E self directory primary_key
               document_type csv_delimiter false w = (Err e', w2)
             /\ rounds w2 = rounds w ++ alone d0 :: more) as (e' & w2 & more & -> & Hsent').
  { unfold Uploads.Index_add_documents_from_directory. rewrite Hdir.
    unfold mbind at 1, M_bind at 1. cbn [Uploads.upload_each].
    rewrite Hsfx, String.eqb_refl, Hload0.
    unfold mbind at 1, M_bind at 1, lift at 1.
    unfold mbind at 1, M_bind at 1.
    pose proof (add_documents_world E self d0 primary_key w) as Hworld.
    destruct (Documents.add_documents E self d0 primary_key w) as [[r|e'] w1]; [|done].
    simpl in Hworld.
    unfold mbind at 1, M_bind at 1.
    pose proof (upload_each_fails rest w1 e Hrest) as Hfail.
    destruct (upload_each_extends rest w1) as [more Hmore].
    destruct (upload_each rest w1) as [[rs|e'] w2]; [done|]. simpl in *.
    exists e', w2, more. split; [done|]. rewrite Hmore, Hworld. simpl.
    rewrite <- app_assoc. reflexivity. }
  split; [done|]. by exists more.
Qed.

End BlockingDirectoryFacts.

Lemma blocking_directory_uploads_in_order_witness :
  exists loaded,
    Documents.load_matching (Scenario.world_of false false)
      (Http.iterdir (Scenario.world_of false false) (Scenario.file "mixed" ""))
      "json" None = Ok loaded
    /\ loaded <> []
    /\ Http.rounds
         (Uploads.Index_add_documents_from_directory (Scenario.world_of false false)
            Scenario.movies (Scenario.file "mixed" "") (Some "id"%string) "json" None false
            Http.fresh).2
       = Http.rounds Http.fresh
         ++ map (fun d => [Documents.post_documents Scenario.movies d (Some "id"%string)])
              loaded
    /\ length [ {| Models.task_uid := 7; Models.task_type := "documentAdditionOrUpdate" |};
                {| Models.task_uid := 7; Models.task_type := "documentAdditionOrUpdate" |} ]
       = length loaded.
Proof.
  apply (blocking_directory_uploads_in_order (Scenario.world_of false false) Scenario.movies
           (Some "id"%string) "json" None (Scenario.file "mixed" "") Http.fresh).
  reflexivity.
Defined.

Lemma blocking_directory_partial_upload_witness :
  is_ok (Uploads.Index_add_documents_from_directory (Cases.broken false) Scenario.movies
           (Scenario.file "movies" "") None "json" None false Http.fresh).1 = false
  /\ exists more,
      Http.rounds (Uploads.Index_add_documents_from_directory (Cases.broken false)
                     Scenario.movies (Scenario.file "movies" "") None "json" None false
                     Http.fresh).2
      = Http.rounds Http.fresh
        ++ [Documents.post_documents Scenario.movies [JStr "a.json"] None] :: more.
Proof.
  apply (blocking_directory_partial_upload (Cases.broken false) Scenario.movies None "json"
           None (Scenario.file "movies" "") (Scenario.file "a.json" ".json")
           [Scenario.file "b.json" ".json"; Scenario.file "c.json" ".json"]
           [JStr "a.json"] (OtherError "JSONDecodeError") Http.fresh).
  - reflexivity.
  - reflexivity.
  - reflexivity.
  - reflexivity.
  - reflexivity.
Defined.

(** ** The client facade, further *)

Lemma prefix_spec (needle haystack : string) :
  String.prefix needle haystack = true <-> exists post, haystack = needle +:+ post.
Proof.
  revert needle. induction haystack as [|b haystack IH]; intros [|a needle]; simpl.
  - split; [intros _; by exists ""%string|done].
  - split; [done|]. by intros [post Hpost].
  - split; [intros _; by exists (String b haystack)|done].
  - destruct (Ascii.ascii_dec a b) as [->|Hne].
    + rewrite IH. split; intros [post Hpost]; exists post; [by rewrite Hpost|].
      by injection Hpost.
    + split; [done|]. intros [post Hpost]. by injection Hpost.
Qed.

(** [Py.contains] is the substring test of Python's [in]. *)
Lemma contains_spec (needle haystack : string) :
  Py.contains needle haystack = true
  <-> exists pre post, haystack = pre +:+ needle +:+ post.
Proof.
  induction haystack as [|c haystack IH].
  - change (Py.contains needle "") with (String.prefix needle "" || false).
    rewrite orb_false_r, prefix_spec. split.
    + intros [post Hpost]. by exists ""%string, post.
    + intros (pre & post & Hsplit). destruct pre as [|x pre]; [|done].
      by exists post.
  - change (Py.contains needle (String c haystack))
      with (String.prefix needle (String c haystack) || Py.contains needle haystack).
    rewrite orb_true_iff, prefix_spec, IH. split.
    + intros [[post Hpost]|(pre & post & Hsplit)].
      * by exists ""%string, post.
      * exists (String c pre), post. simpl. by rewrite Hsplit.
    + intros (pre & post & Hsplit). destruct pre as [|x pre]; simpl in Hsplit.
      * left. by exists post.
      * right. injection Hsplit as _ Hsplit. by exists pre, post.
Qed.

Section MoreClientFacts.
Import Models Http.
Variable E : env.
Variable create_index : string -> option string -> M AsyncIndex.

(** X11. When [get_index] raises a [MeilisearchApiError],
    [get_or_create_index] goes on to [create_index] exactly when
    index_not_found occurs somewhere inside the code of the error, as a
    substring and not only as the whole code; otherwise the error comes out
    as it is and [create_index] is not run. *)
Theorem get_or_create_index_substring uid primary_key w sc code w' :
  Client.get_index E uid w = (Err (MeilisearchApiError sc code), w') ->
  ((exists pre post, code = pre +:+ "index_not_found" +:+ post) ->
   Client.get_or_create_index E create_index uid primary_key w
   = create_index uid primary_key w')
  /\ (~ (exists pre post, code = pre +:+ "index_not_found" +:+ post) ->
      Client.get_or_create_index E create_index uid primary_key w
      = (Err (MeilisearchApiError sc code), w')).
Proof.
  intros Hget. rewrite get_or_create_index_cases, Hget. simpl. split.
  - intros Hsub. apply contains_spec in Hsub. by rewrite Hsub.
  - intros Hnot. destruct (Py.contains "index_not_found" code) eqn:Hc; [|done].
    destruct Hnot. by apply contains_spec.
Qed.

(** X12. [get_index] sends one request, the GET of the index, whatever
    comes back, and the index it returns carries the uid that was asked for,
    not one taken from the response. *)
Theorem get_index_keeps_uid uid w :
  (Client.get_index E uid w).2
  = {| rounds := rounds w ++ [[Client.index_request uid]];
       clock := clock w + latency E (history w) (Client.index_request uid) |}
  /\ (forall index_instance,
         (Client.get_index E uid w).1 = Ok index_instance ->
         Models.uid index_instance = uid).
Proof.
  unfold Client.get_index, Client.fetch_info, HttpRequests_get, HttpRequests_send, send.
  unfold mbind, M_bind, mret, M_ret, lift. simpl.
  change {| method := GET; target := plain_url ("indexes/" +:+ uid); payload := NoBody |}
    with (Client.index_request uid).
  destruct (respond E (history w) (Client.index_request uid)) as [resp|]; [|done].
  destruct ((200 <=? status_code resp) && (status_code resp <? 300)); [|done].
  simpl.
  destruct (json_body resp) as [j|e]; [|done].
  destruct (subscript j "primaryKey") as [pk|e]; [|done].
  destruct (subscript j "createdAt") as [c|e]; [|done].
  destruct (subscript j "updatedAt") as [u|e]; [|done].
  destruct (iso_to_date_time E c) as [c'|e]; [|done].
  destruct (iso_to_date_time E u) as [u'|e]; [|done].
  split; [done|]. by intros i [= <-].
Qed.

Lemma each_IndexInfo_length (xs : list json) (infos : list IndexInfo) :
  Listing.each_IndexInfo E xs = Ok infos -> length infos = length xs.
Proof.
  revert infos. induction xs as [|x xs IH]; intros infos; simpl.
  - by intros [= <-].
  - unfold mbind, result_bind, mret, result_ret.
    destruct (IndexInfo_of E x) as [info|e]; [|done].
    destruct (Listing.each_IndexInfo E xs) as [rest|e]; [|done].
    intros [= <-]. simpl. by rewrite (IH rest).
Qed.

Lemma iterate_truthy (v : json) (xs : list json) :
  Py.truthy v = true -> Token.iterate v = Ok xs -> xs <> [].
Proof.
  destruct v as [|b|n|s|l|o]; simpl; try done.
  - intros Hs [= <-]. by destruct s.
  - intros Hl [= <-]. by destruct l.
  - intros Ho [= <-]. intros Hnil. apply fmap_nil_inv, map_to_list_empty_iff in Hnil.
    subst o. by rewrite bool_decide_eq_true_2 in Ho.
Qed.

(** X13. [get_raw_indexes] never returns an empty list: empty results
    come back as [None], and a list that is returned has at least one
    entry. It sends one request, to the URL of [_build_offset_limit_url]. *)
Theorem get_raw_indexes_never_empty offset limit w :
  (forall infos, (Listing.get_raw_indexes E offset limit w).1 = Ok (Some infos) ->
                 infos <> [])
  /\ rounds (Listing.get_raw_indexes E offset limit w).2
     = rounds w
       ++ [[ {| method := GET;
                target := plain_url (Listing._build_offset_limit_url "indexes" offset limit);
                payload := NoBody |} ]].
Proof.
  unfold Listing.get_raw_indexes, HttpRequests_get, HttpRequests_send, send.
  unfold mbind, M_bind, mret, M_ret, lift. simpl.
  destruct (respond E (history w) _) as [resp|]; [|done].
  destruct ((200 <=? status_code resp) && (status_code resp <? 300)); [|done].
  simpl.
  destruct (Listing.results_of resp) as [results|e]; [|done].
  destruct (Py.truthy results) eqn:Htruthy; simpl; [|done].
  destruct (Token.iterate results) as [xs|e] eqn:Hiter; [|done].
  destruct (Listing.each_IndexInfo E xs) as [infos|e] eqn:Heach; [|done].
  split; [|done]. intros l [= <-] ->.
  apply each_IndexInfo_length in Heach.
  apply (iterate_truthy results xs Htruthy Hiter).
  by destruct xs.
Qed.

End MoreClientFacts.

Lemma append_more (base more : string) : base +:+ more = base -> more = ""%string.
Proof.
  induction base as [|c base IH]; simpl; [done|]. intros [= Hbase]. by apply IH.
Qed.

(** X14. [_build_offset_limit_url] leaves the base URL as it is exactly
    when neither offset nor limit is given; an offset or limit of 0 is
    given, and is put in the URL. *)
Theorem offset_limit_url_bare (base : string) (offset limit : option Z) :
  Listing._build_offset_limit_url base offset limit = base
  <-> offset = None /\ limit = None.
Proof.
  split.
  - destruct offset as [o|], limit as [l|]; simpl; intros Hsame; [| | |done];
      by apply append_more in Hsame.
  - by intros [-> ->].
Qed.

(** X15. The payload of a key update never holds the value of the key
    itself and never holds a null: [_build_update_key_payload] drops the
    entry named key and every entry that is [None], and keeps every other
    entry as it is. *)
Theorem update_key_payload_entries (dumped : gmap string json) (k : string) (v : json) :
  Listing._build_update_key_payload dumped !! k = Some v
  <-> dumped !! k = Some v /\ v <> JNull /\ k <> "key"%string.
Proof.
  unfold Listing._build_update_key_payload.
  rewrite map_lookup_filter_Some. simpl. split.
  - intros (Hk & Hnull & Hkey). split; [done|]. split; [|done]. by intros ->.
  - intros (Hk & Hnull & Hkey). split; [done|]. split; [|done]. by destruct v.
Qed.

(** ** The raw upload *)

Section RawUploadFacts.
Import Models Http.
Variable E : env.
Variable self : AsyncIndex.

(** X16. [add_documents_from_raw_file] either raises with nothing sent, or
    sends exactly one request; and it sends one only for an existing file
    with suffix .csv or .ndjson that could be read, with a delimiter that
    passed the check and, if given, goes with a .csv file. The request is a
    POST of the text of the file, typed text/csv for a .csv file and
    application/x-ndjson otherwise. *)
Theorem raw_upload_sends_at_most_once (upload_path : Path) (primary_key : option string)
    (csv_delimiter : option pystr) (w : world) :
  (is_ok (Documents.add_documents_from_raw_file E self upload_path primary_key
            csv_delimiter w).1 = false
   /\ (Documents.add_documents_from_raw_file E self upload_path primary_key
         csv_delimiter w).2 = w)
  \/ (exists data,
         path_exists E upload_path = true
         /\ (suffix upload_path = ".csv"%string \/ suffix upload_path = ".ndjson"%string)
         /\ Documents.bad_delimiter csv_delimiter = false
         /\ (Documents.given csv_delimiter = true -> suffix upload_path = ".csv"%string)
         /\ read_text E upload_path = Ok data
         /\ rounds (Documents.add_documents_from_raw_file E self upload_path primary_key
                      csv_delimiter w).2
            = rounds w
              ++ [[Uploads.raw_request self upload_path primary_key csv_delimiter data]]).
Proof.
  unfold Documents.add_documents_from_raw_file.
  destruct (path_exists E upload_path); cbn [negb]; [|by left].
  destruct (existsb (String.eqb (suffix upload_path)) [".csv"; ".ndjson"]%string)
    eqn:Hsuffix; cbn [negb]; [|by left].
  destruct (Documents.given csv_delimiter && negb (String.eqb (suffix upload_path) ".csv"))
    eqn:Hpair; [by left|].
  destruct (Documents.bad_delimiter csv_delimiter) eqn:Hbad; [by left|].
  unfold mbind at 1, M_bind at 1, lift at 1.
  destruct (read_text E upload_path) as [data|e]; [|by left].
  right. exists data. split; [done|]. split.
  { simpl in Hsuffix. rewrite orb_false_r in Hsuffix.
    apply orb_true_iff in Hsuffix as [Hcsv|Hnd]; [left|right]; by apply String.eqb_eq. }
  split; [done|]. split.
  { intros Hgiven. rewrite Hgiven in Hpair. simpl in Hpair.
    apply negb_false_iff in Hpair. by apply String.eqb_eq. }
  split; [done|].
  unfold HttpRequests_post, HttpRequests_send, send, mbind, M_bind, lift. simpl.
  destruct (respond E (history w) _) as [resp|]; [|reflexivity].
  destruct ((200 <=? status_code resp) && (status_code resp <? 300)); [|reflexivity].
  simpl. destruct (json_body resp); reflexivity.
Qed.

End RawUploadFacts.

Example raw_upload_of_a_csv_file :
  Http.rounds (Documents.add_documents_from_raw_file (Scenario.world_of false false)
                 Scenario.movies (Scenario.file "films.csv" ".csv") (Some "id"%string)
                 (Some [59%N]) Http.fresh).2
  = [[ {| Http.method := Http.POST;
          Http.target :=
            {| Http.path := "indexes/movies/documents";
               Http.query := [("primaryKey"%string, [105%N; 100%N]);
                              ("csvDelimiter"%string, [59%N])] |};
          Http.payload := Http.RawBody "films.csv" "text/csv" |} ]].
Proof. reflexivity. Qed.

(** ** Updating from a directory *)

Section UpdateDirectoryFacts.
Import Models Http.
Variable E : env.
Variable self : AsyncIndex.

Lemma update_documents_world documents primary_key w :
  (Uploads.update_documents E self documents primary_key w).2 =
    {| rounds := rounds w ++ [[Uploads.put_documents self documents primary_key]];
       clock := clock w
                + latency E (history w) (Uploads.put_documents self documents primary_key) |}.
Proof.
  unfold Uploads.update_documents, HttpRequests_send, send, mbind, M_bind.
  simpl. fold (Uploads.put_documents self documents primary_key).
  destruct (respond E (history w) _) as [resp|]; [|done].
  destruct ((200 <=? status_code resp) && (status_code resp <? 300)); [|done].
  simpl. unfold lift. destruct (json_body resp); done.
Qed.

Lemma has_primary_key_put documents primary_key :
  Documents.has_primary_key (Uploads.put_documents self documents primary_key)
  = Py.truthy_str primary_key.
Proof.
  unfold Documents.has_primary_key, Uploads.put_documents. simpl.
  by destruct (Py.truthy_str primary_key).
Qed.

Lemma run_all_update_documents primary_key (loaded : list (list json)) w :
  rounds (run_all (map (fun d => Uploads.update_documents E self d primary_key) loaded) w).2
  = rounds w ++ map (fun d => [Uploads.put_documents self d primary_key]) loaded.
Proof.
  revert w. induction loaded as [|d loaded IH]; intros w; simpl.
  - by rewrite app_nil_r.
  - pose proof (update_documents_world d primary_key w) as Hw.
    destruct (Uploads.update_documents E self d primary_key w) as [r w1]. simpl in Hw.
    specialize (IH w1).
    destruct (run_all _ w1) as [rs w2]. simpl in *.
    rewrite IH, Hw. simpl. rewrite <- app_assoc. reflexivity.
Qed.

Lemma gather_update_documents primary_key (loaded : list (list json)) w :
  rounds (gather (map (fun d => Uploads.update_documents E self d primary_key) loaded) w).2
  = rounds w
    ++ match loaded with
       | [] => []
       | _ => [map (fun d => Uploads.put_documents self d primary_key) loaded]
       end.
Proof.
  assert (concat (map (fun d => [Uploads.put_documents self d primary_key]) loaded)
          = map (fun d => Uploads.put_documents self d primary_key) loaded) as Hflat.
  { induction loaded as [|d l IHl]; simpl; [done|]. by rewrite IHl. }
  unfold gather.
  pose proof (run_all_update_documents primary_key loaded w) as Hrun.
  destruct (run_all _ w) as [rs w']. simpl in *.
  rewrite Hrun, drop_app_length, Hflat.
  by destruct loaded.
Qed.

Lemma update_task_group_loop_tail primary_key document_type csv_delimiter :
  forall (rest : list Path) (a : nat) tasks results w loaded,
    Documents.load_matching E rest document_type csv_delimiter = Ok loaded ->
    Uploads.update_task_group_loop E self primary_key document_type csv_delimiter
      (zip (seq (S a) (length rest)) rest) tasks results w
    = (Ok (tasks ++ map (fun d => Uploads.update_documents E self d primary_key) loaded,
           results), w).
Proof.
  induction rest as [|p rest IH]; intros a tasks results w loaded Hload.
  - simpl in *. injection Hload as <-. simpl. by rewrite app_nil_r.
  - simpl in *.
    destruct (String.eqb (suffix p) ("." +:+ document_type)).
    + unfold mbind, result_bind in Hload.
      destruct (Documents._async_load_documents_from_file E p csv_delimiter) as [d|e];
        [|done].
      destruct (Documents.load_matching E rest document_type csv_delimiter) as [ds|e];
        [|done].
      injection Hload as <-.
      unfold mbind at 1, M_bind at 1, lift at 1.
      rewrite (IH (S a) _ results w ds eq_refl).
      simpl. by rewrite <- app_assoc.
    + by apply IH.
Qed.

(** X17. In the task-group branch of [update_documents_from_directory],
    when the first entry of the listing is a file of the requested type and
    the files load, the first upload is sent alone and carries the primary
    key like every upload after it: here the first call is given the
    primary key, which the same branch of [add_documents_from_directory]
    leaves out. *)
Theorem update_task_group_keeps_primary_key (directory p0 : Path) (rest : list Path)
    (primary_key : option string) (document_type : string) (csv_delimiter : option pystr)
    (d0 : list json) (ds : list (list json)) (w : world) :
  use_task_groups E = true ->
  iterdir E directory = p0 :: rest ->
  suffix p0 = "." +:+ document_type ->
  Documents.load_matching E (p0 :: rest) document_type csv_delimiter = Ok (d0 :: ds) ->
  Py.truthy_str primary_key = true ->
  exists later,
    rounds (Uploads.update_documents_from_directory E self directory primary_key
              document_type csv_delimiter false w).2
    = rounds w ++ [Uploads.put_documents self d0 primary_key] :: later
    /\ Documents.has_primary_key (Uploads.put_documents self d0 primary_key) = true
    /\ Forall (Forall (fun r => Documents.has_primary_key r = true)) later
    /\ (is_ok (Uploads.update_documents E self d0 primary_key w).1 = true ->
        concat later = map (fun d => Uploads.put_documents self d primary_key) ds).
Proof.
  intros Htg Hdir Hsfx Hload Hpk.
  cbn [Documents.load_matching] in Hload.
  rewrite Hsfx, String.eqb_refl in Hload.
  unfold mbind, result_bind in Hload.
  destruct (Documents._async_load_documents_from_file E p0 csv_delimiter) as [d|e] eqn:Hload0;
    [|done].
  destruct (Documents.load_matching E rest document_type csv_delimiter) as [ds'|e] eqn:Hrest;
    [|done].
  injection Hload as -> ->.
  unfold Uploads.update_documents_from_directory. rewrite Htg, Hdir. cbn [negb].
  unfold Documents.enumerate. cbn [length seq zip zip_with].
  unfold mbind at 1, M_bind at 1. cbn [Uploads.update_task_group_loop].
  rewrite Hsfx, String.eqb_refl, Hload0. cbn [Nat.eqb].
  unfold mbind at 1, M_bind at 1, lift at 1.
  unfold mbind at 1, M_bind at 1.
  pose proof (update_documents_world d0 primary_key w) as Hfirst.
  destruct (Uploads.update_documents E self d0 primary_key w) as [[r|e] w1];
    simpl in Hfirst.
  - rewrite (update_task_group_loop_tail primary_key document_type csv_delimiter rest 0%nat
               [] [r] w1 ds Hrest).
    cbn [app].
    exists (match ds with
            | [] => []
            | _ => [map (fun d => Uploads.put_documents self d primary_key) ds]
            end).
    split; [|split; [|split]].
    + unfold mbind at 1, M_bind at 1.
      pose proof (gather_update_documents primary_key ds w1) as Hgather.
      destruct (gather _ w1) as [[results|e] w2]; simpl in Hgather.
      * unfold mbind, M_bind, lift, Documents._raise_on_no_documents. simpl.
        rewrite Hgather, Hfirst. simpl. rewrite <- app_assoc. reflexivity.
      * simpl. rewrite Hgather, Hfirst. simpl. rewrite <- app_assoc. reflexivity.
    + by rewrite has_primary_key_put.
    + destruct ds as [|d ds]; [constructor|].
      constructor; [|constructor].
      apply Forall_forall. intros x Hx.
      apply list_elem_of_In, in_map_iff in Hx as (y & <- & _).
      by rewrite has_primary_key_put.
    + intros _. destruct ds as [|d ds]; [done|]. simpl. by rewrite app_nil_r.
  - exists []. split; [|split; [|split]].
    + simpl. by rewrite Hfirst.
    + by rewrite has_primary_key_put.
    + constructor.
    + intros Hok. done.
Qed.

End UpdateDirectoryFacts.

(** ** The further properties, run *)

Lemma get_or_create_index_substring_witness :
  Client.get_or_create_index Cases.renamed Scenario.created "movies" None Http.fresh
  = Scenario.created "movies" None (Client.get_index Cases.renamed "movies" Http.fresh).2.
Proof.
  apply (proj1 (get_or_create_index_substring Cases.renamed Scenario.created "movies" None
                  Http.fresh 404 "v2_index_not_found_error"
                  (Client.get_index Cases.renamed "movies" Http.fresh).2 eq_refl)).
  exists "v2_"%string, "_error"%string. reflexivity.
Defined.

Lemma get_index_keeps_uid_witness :
  Models.uid {| Models.uid := "books"; Models.primary_key := JStr "isbn";
                Models.created_at := Some 1; Models.updated_at := Some 2 |}
  = "books"%string.
Proof.
  apply (proj2 (get_index_keeps_uid (Scenario.world_of false false) "books" Http.fresh)).
  reflexivity.
Defined.

Lemma get_raw_indexes_never_empty_witness :
  [ {| Models.info_uid := "books"; Models.info_primary_key := Some "isbn"%string |} ] <> [].
Proof.
  apply (proj1 (get_raw_indexes_never_empty Cases.lister (Some 0) (Some 20) Http.fresh)).
  reflexivity.
Defined.

Example get_raw_indexes_of_nothing :
  (Listing.get_raw_indexes Cases.empty_lister None None Http.fresh).1 = Ok None.
Proof. reflexivity. Qed.

Lemma offset_limit_url_bare_witness :
  Listing._build_offset_limit_url "indexes" (Some 0) None <> "indexes"%string.
Proof.
  intros Hsame.
  apply (offset_limit_url_bare "indexes" (Some 0) None) in Hsame as [Hoffset _].
  discriminate Hoffset.
Defined.

Example offset_limit_url_of_zero :
  Listing._build_offset_limit_url "indexes" (Some 0) (Some 20)
  = "indexes?offset=0&limit=20"%string.
Proof. reflexivity. Qed.

Lemma update_key_payload_entries_witness :
  Listing._build_update_key_payload Cases.dumped_key !! "name"%string = Some (JStr "search")
  /\ Listing._build_update_key_payload Cases.dumped_key !! "key"%string = None
  /\ Listing._build_update_key_payload Cases.dumped_key !! "description"%string = None.
Proof.
  split; [|split].
  - apply (update_key_payload_entries Cases.dumped_key "name" (JStr "search")).
    split; [reflexivity|]. split; discriminate.
  - destruct (Listing._build_update_key_payload Cases.dumped_key !! "key"%string)
      as [v|] eqn:Hkey; [|reflexivity].
    apply (update_key_payload_entries Cases.dumped_key "key" v) in Hkey
      as (_ & _ & Hname). by destruct Hname.
  - destruct (Listing._build_update_key_payload Cases.dumped_key !! "description"%string)
      as [v|] eqn:Hdesc; [|reflexivity].
    apply (update_key_payload_entries Cases.dumped_key "description" v) in Hdesc
      as (Hv & Hnull & _). injection Hv as <-. by destruct Hnull.
Defined.

Lemma raw_upload_sends_at_most_once_witness :
  (is_ok (Documents.add_documents_from_raw_file (Scenario.world_of false false)
            Scenario.movies (Scenario.file "films.json" ".json") None None Http.fresh).1
   = false
   /\ (Documents.add_documents_from_raw_file (Scenario.world_of false false)
         Scenario.movies (Scenario.file "films.json" ".json") None None Http.fresh).2
      = Http.fresh)
  \/ (exists data,
         Http.path_exists (Scenario.world_of false false) (Scenario.file "films.json" ".json")
         = true
         /\ (Models.suffix (Scenario.file "films.json" ".json") = ".csv"%string
             \/ Models.suffix (Scenario.file "films.json" ".json") = ".ndjson"%string)
         /\ Documents.bad_delimiter None = false
         /\ (Documents.given None = true ->
             Models.suffix (Scenario.file "films.json" ".json") = ".csv"%string)
         /\ Http.read_text (Scenario.world_of false false)
              (Scenario.file "films.json" ".json") = Ok data
         /\ Http.rounds
              (Documents.add_documents_from_raw_file (Scenario.world_of false false)
                 Scenario.movies (Scenario.file "films.json" ".json") None None
                 Http.fresh).2
            = Http.rounds Http.fresh
              ++ [[Uploads.raw_request Scenario.movies (Scenario.file "films.json" ".json")
                     None None data]]).
Proof.
  apply (raw_upload_sends_at_most_once (Scenario.world_of false false) Scenario.movies
           (Scenario.file "films.json" ".json") None None Http.fresh).
Defined.

Example raw_upload_of_a_json_file :
  Documents.add_documents_from_raw_file (Scenario.world_of false false) Scenario.movies
    (Scenario.file "films.json" ".json") None None Http.fresh
  = (Err (ValueError "Only csv and ndjson files can be sent as binary files"), Http.fresh).
Proof. reflexivity. Qed.

Lemma update_task_group_keeps_primary_key_witness :
  exists later,
    Http.rounds (Uploads.update_documents_from_directory (Cases.accepting true)
                   Scenario.movies (Scenario.file "movies" "") (Some "id"%string) "json" None
                   false Http.fresh).2
    = Http.rounds Http.fresh
      ++ [Uploads.put_documents Scenario.movies [JStr "a.json"] (Some "id"%string)] :: later
    /\ Documents.has_primary_key
         (Uploads.put_documents Scenario.movies [JStr "a.json"] (Some "id"%string)) = true
    /\ Forall (Forall (fun r => Documents.has_primary_key r = true)) later
    /\ (is_ok (Uploads.update_documents (Cases.accepting true) Scenario.movies
                 [JStr "a.json"] (Some "id"%string) Http.fresh).1 = true ->
        concat later
        = map (fun d => Uploads.put_documents Scenario.movies d (Some "id"%string))
              [[JStr "b.json"]; [JStr "c.json"]]).
Proof.
  apply (update_task_group_keeps_primary_key (Cases.accepting true)
           Scenario.movies (Scenario.file "movies" "") (Scenario.file "a.json" ".json")
           [Scenario.file "b.json" ".json"; Scenario.file "c.json" ".json"]
           (Some "id"%string) "json" None [JStr "a.json"]
           [[JStr "b.json"]; [JStr "c.json"]] Http.fresh).
  - reflexivity.
  - reflexivity.
  - reflexivity.
  - reflexivity.
  - reflexivity.
Defined.

Example update_from_directory_rounds :
  Http.rounds (Uploads.update_documents_from_directory (Cases.accepting true)
                 Scenario.movies (Scenario.file "movies" "") (Some "id"%string) "json" None
                 false Http.fresh).2
  = [[Uploads.put_documents Scenario.movies [JStr "a.json"] (Some "id"%string)];
     [Uploads.put_documents Scenario.movies [JStr "b.json"] (Some "id"%string);
      Uploads.put_documents Scenario.movies [JStr "c.json"] (Some "id"%string)]].
Proof. reflexivity. Qed.

(** The three json files of movies without task groups: the upload of the
    last one, c.json, goes first and alone. *)
Lemma gather_branch_last_alone_witness :
  exists later,
    Http.rounds (Documents.add_documents_from_directory (Cases.accepting false)
                   Scenario.movies (Scenario.file "movies" "") (Some "id"%string) "json" None
                   false Http.fresh).2
    = Http.rounds Http.fresh
      ++ [Documents.post_documents Scenario.movies [JStr "c.json"] (Some "id"%string)]
         :: later
    /\ (is_ok (Documents.add_documents (Cases.accepting false) Scenario.movies
                 [JStr "c.json"] (Some "id"%string) Http.fresh).1 = true ->
        later = [map (fun d => Documents.post_documents Scenario.movies d (Some "id"%string))
                     [[JStr "a.json"]; [JStr "b.json"]]]).
Proof.
  apply (gather_branch_last_alone (Cases.accepting false) Scenario.movies
           (Scenario.file "movies" "") (Some "id"%string) "json" None
           [[JStr "a.json"]; [JStr "b.json"]] [JStr "c.json"] Http.fresh).
  - reflexivity.
  - reflexivity.
  - discriminate.
Defined.
